(** * Ollama-Desktop: the worker threads and the model catalog filter

    A shallow embedding of the non-GUI logic of the application:

    - [OllamaDesktopApp.filter_valid_models]  (main_window.py)
    - [OllamaDesktopApp.send_message]         (main_window.py)
    - [OllamaWorker.run], [OllamaWorker.cancel]            (workers.py)
    - [ModelManager._pull_model], [ModelManager._format_size] (workers.py)

    A Python [str] is modelled by the [string] of the bytes of its UTF-8
    encoding.  Concatenation, substring search, splitting at an ASCII
    character and comparison act on these bytes as Python does on the
    code points (UTF-8 keeps the order of the code points and no encoded
    character begins inside another).  [str.strip] removes the white
    space of Unicode, by its encodings.  [str.lower] is modelled on the
    letters A to Z: model identifiers are ASCII. *)

From Stdlib Require Import ZArith List Bool Ascii String Lia.
From Stdlib Require Import DecimalString Sorted Permutation.
From Stdlib Require OrderedTypeEx.
From Stdlib Require Floats.SpecFloat.
Import ListNotations.

Local Open Scope string_scope.
Local Open Scope list_scope.
Local Open Scope Z_scope.

(* ------------------------------------------------------------------ *)
(** * Python string primitives *)

Module PyStr.

(** [c.lower()] on one ASCII character: 'A'..'Z' move to 'a'..'z'. *)
Definition lower_ascii (c : ascii) : ascii :=
  let n := nat_of_ascii c in
  if andb (Nat.leb 65 n) (Nat.leb n 90) then ascii_of_nat (n + 32) else c.

(** [s.lower()] *)
Fixpoint lower (s : string) : string :=
  match s with
  | EmptyString => EmptyString
  | String c r => String (lower_ascii c) (lower r)
  end.

(** [sub in s]: [sub] occurs in [s] as a contiguous substring. *)
Fixpoint contains (sub s : string) : bool :=
  if String.prefix sub s then true
  else match s with
       | EmptyString => false
       | String _ r => contains sub r
       end.

(** [s.split(sep, 1)] when [sep in s]: the text before the first
    occurrence of the character and the text after it; [None] when the
    character does not occur (the split then has one element). *)
Fixpoint split_once (sep : ascii) (s : string) : option (string * string) :=
  match s with
  | EmptyString => None
  | String c r =>
      if Ascii.eqb c sep then Some (EmptyString, r)
      else match split_once sep r with
           | Some (a, b) => Some (String c a, b)
           | None => None
           end
  end.

(** [c.isspace()] for a character below U+0080, which is the one byte
    [c]: TAB, LF, VT, FF, CR, FS, GS, RS, US, SPACE. *)
Definition isspace (c : ascii) : bool :=
  let n := nat_of_ascii c in
  orb (andb (Nat.leb 9 n) (Nat.leb n 13))
      (orb (andb (Nat.leb 28 n) (Nat.leb n 31)) (Nat.eqb n 32)).

(** [isspace] for a character that takes two bytes: U+0085 (C2 85) and
    U+00A0 (C2 A0). *)
Definition isspace2 (a b : ascii) : bool :=
  let y := nat_of_ascii b in
  andb (Nat.eqb (nat_of_ascii a) 194) (orb (Nat.eqb y 133) (Nat.eqb y 160)).

(** [isspace] for a character that takes three bytes: U+1680 (E1 9A 80),
    U+2000 to U+200A (E2 80 80 to E2 80 8A), U+2028 and U+2029 (E2 80 A8,
    E2 80 A9), U+202F (E2 80 AF), U+205F (E2 81 9F), U+3000 (E3 80 80).
    No white space takes four bytes. *)
Definition isspace3 (a b c : ascii) : bool :=
  let x := nat_of_ascii a in
  let y := nat_of_ascii b in
  let z := nat_of_ascii c in
  orb (andb (Nat.eqb x 225) (andb (Nat.eqb y 154) (Nat.eqb z 128)))
 (orb (andb (Nat.eqb x 226)
        (andb (Nat.eqb y 128)
           (orb (andb (Nat.leb 128 z) (Nat.leb z 138))
           (orb (Nat.eqb z 168) (orb (Nat.eqb z 169) (Nat.eqb z 175))))))
 (orb (andb (Nat.eqb x 226) (andb (Nat.eqb y 129) (Nat.eqb z 159)))
      (andb (Nat.eqb x 227) (andb (Nat.eqb y 128) (Nat.eqb z 128))))).

(** [s.lstrip()]: the white space at the head of [s] is removed,
    character by character. *)
Fixpoint lstrip (s : string) : string :=
  match s with
  | EmptyString => EmptyString
  | String a r =>
      if isspace a then lstrip r
      else
        match r with
        | EmptyString => s
        | String b r2 =>
            if isspace2 a b then lstrip r2
            else
              match r2 with
              | EmptyString => s
              | String c r3 => if isspace3 a b c then lstrip r3 else s
              end
        end
  end.

(** Every character of [s] is white space. *)
Fixpoint blank (s : string) : bool :=
  match s with
  | EmptyString => true
  | String a r =>
      if isspace a then blank r
      else
        match r with
        | EmptyString => false
        | String b r2 =>
            if isspace2 a b then blank r2
            else
              match r2 with
              | EmptyString => false
              | String c r3 => andb (isspace3 a b c) (blank r3)
              end
        end
  end.

(** [s.rstrip()]: the text is cut where nothing but white space
    follows.  (What follows a byte inside an encoded character begins
    with a byte from 80 to BF, which begins no white space: a character
    is never cut in two.) *)
Fixpoint rstrip (s : string) : string :=
  match s with
  | EmptyString => EmptyString
  | String c r => if blank s then EmptyString else String c (rstrip r)
  end.

(** [s.strip()] *)
Definition strip (s : string) : string := rstrip (lstrip s).

(** Truth value of a string: [bool(s)], false exactly for [EmptyString]. *)
Definition truthy (s : string) : bool :=
  match s with EmptyString => false | _ => true end.

(** [''.join(l)] *)
Definition join (l : list string) : string :=
  fold_right String.append EmptyString l.

(** [str(n)] of an integer, as the f-string [{n}] prints it. *)
Definition of_int (n : Z) : string := NilZero.string_of_int (Z.to_int n).

(** [any(k in s for k in keys)] *)
Definition any_in (keys : list string) (s : string) : bool :=
  existsb (fun k => contains k s) keys.

(** [x <= y] on strings. *)
Definition le (x y : string) : Prop := String.leb x y = true.

(** Insertion of one element into a list in ascending order, after the
    elements that are smaller and before those that are not. *)
Fixpoint insert (x : string) (l : list string) : list string :=
  match l with
  | [] => [x]
  | y :: r => if String.leb x y then x :: l else y :: insert x r
  end.

(** [sorted(l)]: ascending by code point, lexicographically.  Equal
    strings are identical, so every stable sort returns this list. *)
Fixpoint sorted (l : list string) : list string :=
  match l with
  | [] => []
  | x :: r => insert x (sorted r)
  end.

End PyStr.

(* ------------------------------------------------------------------ *)
(** * The model catalog filter (main_window.py) *)

Module Catalog.

Definition skip_keywords : list string :=
  [ "embedding"; "vision"; "multimodal"; "experimental";
    "unstable"; "beta"; "alpha"; "dev"; "draft";
    "corrupt"; "broken"; "incomplete"; "failed" ].

Definition invalid_tags : list string :=
  [ "fp16"; "gguf"; "bin"; "safetensors"; "pytorch";
    "tf"; "onnx"; "openvino"; "mlx"; "f16"; "q2_k";
    "q3_k"; "q4_k"; "q5_k"; "q6_k"; "q8_0"; "iq";
    "code"; "instruct-fp16"; "chat-fp16" ].

Definition deprecated_models : list string :=
  [ "codellama:7b-python"; "codellama:13b-python"; "codellama:34b-python";
    "vicuna"; "alpaca"; "chatglm"; "baichuan"; "internlm" ].

Definition large_sizes : list string := [ "70b"; "72b"; "180b"; "405b" ].

Definition valid_patterns : list string :=
  [ "llama"; "mistral"; "gemma"; "qwen"; "phi"; "tinyllama";
    "orca"; "dolphin"; "wizard"; "neural"; "nous"; "zephyr" ].

(** The body of the [for model in models] loop: [true] when the loop
    reaches [valid_models.append(model)], [false] when it leaves the
    iteration by [continue] or falls off the last [if]. *)
Definition accepts (model : string) : bool :=
  let model_lower := PyStr.lower model in
  if PyStr.any_in skip_keywords model_lower then false
  else if andb (PyStr.contains "test" model_lower)
               (negb (PyStr.contains "latest" model_lower)) then false
  else if match PyStr.split_once ":" model with
          | Some (_, tag) => PyStr.any_in invalid_tags (PyStr.lower tag)
          | None => false
          end then false
  else if PyStr.any_in deprecated_models model_lower then false
  else if PyStr.any_in large_sizes model_lower then false
  else PyStr.any_in valid_patterns model_lower.

(** The loop itself, with [valid_models] as the accumulator. *)
Fixpoint filter_loop (models valid_models : list string) : list string :=
  match models with
  | [] => valid_models
  | model :: rest =>
      if accepts model then filter_loop rest (valid_models ++ [model])
      else filter_loop rest valid_models
  end.

Definition filter_valid_models (models : list string) : list string :=
  PyStr.sorted (filter_loop models []).

End Catalog.

(* ------------------------------------------------------------------ *)
(** * Data model (models.py) and the streaming transport *)

Record ChatMessage := {
  role : string;            (* 'user' | 'assistant' | 'system' *)
  content : string;
  timestamp : Z;            (* set once, in __post_init__ *)
  model : string;
  tokens : Z
}.

Record APIConfig := {
  host : string;
  port : Z;
  timeout : Z
}.

(** [APIConfig.base_url] *)
Definition base_url (c : APIConfig) : string :=
  ("http://" ++ host c ++ ":" ++ PyStr.of_int (port c))%string.

Record ModelConfig := {
  temperature : SpecFloat.spec_float;
  top_p : SpecFloat.spec_float;
  num_predict : Z;
  num_ctx : Z;
  system_prompt : string
}.

(** What a worker thread meets while it iterates over a streamed response
    of the [ollama] client.  The list of events is consumed from the left;
    when it is exhausted the iterator is exhausted ([StopIteration]). *)
Inductive stream_event (A : Type) : Type :=
  | Deliver (x : A)        (* the iterator yields [x] *)
  | Raise (msg : string)   (* the call or the iterator raises; [str(e) = msg] *)
  | CancelRequest.         (* the GUI thread sets [is_cancelled] meanwhile *)

Arguments Deliver {A} x.
Arguments Raise {A} msg.
Arguments CancelRequest {A}.

(** No cancellation is requested anywhere in the stream. *)
Definition no_cancel {A} (s : list (stream_event A)) : Prop :=
  ~ In CancelRequest s.

(* ------------------------------------------------------------------ *)
(** * OllamaWorker (workers.py) *)

Module OllamaWorker.

(** One streamed chunk, as [run] reads it:
    [chunk.get('message', {}).get('content', '')] and
    [chunk.get('done', False)]; [None] stands for an absent key. *)
Record Chunk := {
  chunk_content : option string;
  chunk_done : option bool
}.

Definition get_content (c : Chunk) : string :=
  match chunk_content c with Some s => s | None => EmptyString end.

Definition get_done (c : Chunk) : bool :=
  match chunk_done c with Some b => b | None => false end.

(** The three Qt signals of the worker. *)
Inductive Signal :=
  | message_chunk (text : string)
  | message_complete (text : string)
  | error_occurred (text : string).

(** A message dict of the request: a list of key/value pairs in the
    order of the dict literal. *)
Definition ollama_message := list (string * string).

(** What the thread does that others can see: the streaming request it
    issues, and the signals it emits. *)
Inductive action :=
  | Chat (url : string) (name : string) (messages : list ollama_message)
  | Emit (s : Signal).

(** The mutable attributes of the thread object. *)
Record t := {
  w_model : string;
  messages : list ChatMessage;   (* the list handed to [__init__], by its
                                    contents when [run] goes through it *)
  api_config : APIConfig;
  model_config : ModelConfig;
  is_cancelled : bool;
  full_response : string
}.

(** [__init__] *)
Definition init (m : string) (msgs : list ChatMessage)
    (api : APIConfig) (cfg : ModelConfig) : t :=
  {| w_model := m; messages := msgs; api_config := api; model_config := cfg;
     is_cancelled := false; full_response := EmptyString |}.

(** [cancel] *)
Definition cancel (w : t) : t :=
  {| w_model := w_model w; messages := messages w;
     api_config := api_config w; model_config := model_config w;
     is_cancelled := true; full_response := full_response w |}.

Definition add_response (w : t) (text : string) : t :=
  {| w_model := w_model w; messages := messages w;
     api_config := api_config w; model_config := model_config w;
     is_cancelled := is_cancelled w;
     full_response := (full_response w ++ text)%string |}.

(** Lines 40-60 of [run]: the messages in ollama format. *)
Definition ollama_messages (cfg : ModelConfig) (msgs : list ChatMessage)
    : list ollama_message :=
  let system_prompt := PyStr.strip (system_prompt cfg) in
  (if PyStr.truthy system_prompt
   then [ [("role", "system"); ("content", system_prompt)] ]
   else [])
  ++ map (fun msg => [("role", role msg); ("content", content msg)]) msgs.

(** The [for chunk in response] loop, inside the [try]. *)
Fixpoint stream_loop (w : t) (response : list (stream_event Chunk))
    : list Signal * t :=
  match response with
  | [] => ([], w)
  | CancelRequest :: rest => stream_loop (cancel w) rest
  | Raise msg :: _ =>
      (if is_cancelled w then [] else [error_occurred msg], w)
  | Deliver chunk :: rest =>
      if is_cancelled w then ([], w)
      else
        let content := get_content chunk in
        let '(out, w1) :=
          if PyStr.truthy content
          then ([message_chunk content], add_response w content)
          else ([], w) in
        if get_done chunk
        then (out ++ [message_complete (full_response w1)], w1)
        else let '(out', w2) := stream_loop w1 rest in (out ++ out', w2)
  end.

(** [run] *)
Definition run (w : t) (response : list (stream_event Chunk))
    : list action * t :=
  if is_cancelled w then ([], w)
  else
    let request :=
      Chat (base_url (api_config w)) (w_model w)
           (ollama_messages (model_config w) (messages w)) in
    let '(out, w') := stream_loop w response in
    (request :: map Emit out, w').

(** The signals among the actions of a run. *)
Definition signals (acts : list action) : list Signal :=
  flat_map (fun a => match a with Emit s => [s] | Chat _ _ _ => [] end) acts.

Definition is_error (s : Signal) : bool :=
  match s with error_occurred _ => true | _ => false end.

Definition is_complete (s : Signal) : bool :=
  match s with message_complete _ => true | _ => false end.

Definition count (p : Signal -> bool) (l : list Signal) : nat :=
  List.length (filter p l).

(** The non-empty fragments of a sequence of chunks, in order. *)
Definition fragments (cs : list Chunk) : list string :=
  filter PyStr.truthy (map get_content cs).

End OllamaWorker.

(* ------------------------------------------------------------------ *)
(** * OllamaDesktopApp.send_message (main_window.py) *)

Module MainWindow.

(** A started worker thread: the thread object and what its response
    stream still holds for it.  A thread whose [run] has returned has
    nothing pending. *)
Record thread := {
  worker : OllamaWorker.t;
  pending : list (stream_event OllamaWorker.Chunk)
}.

(** The attributes of the window that [send_message] reads or writes. *)
Record t := {
  input_text : string;                  (* input_text.toPlainText() *)
  current_model : string;               (* model_combo.currentText() *)
  message_history : list ChatMessage;
  ollama_worker : option thread;
  api_config : APIConfig;
  model_config : ModelConfig
}.

(** [self.message_history] is bound once, in [__init__], and afterwards
    only appended to or cleared; [send_message] hands this list itself to
    every worker it creates ([messages=self.message_history]).  The window
    and its workers therefore hold one list object: the field
    [message_history] has its contents, the attribute [messages] of the
    worker of the window is the same object, and a write to the list
    shows in both. *)
Definition set_messages (w : OllamaWorker.t) (msgs : list ChatMessage)
    : OllamaWorker.t :=
  {| OllamaWorker.w_model := OllamaWorker.w_model w;
     OllamaWorker.messages := msgs;
     OllamaWorker.api_config := OllamaWorker.api_config w;
     OllamaWorker.model_config := OllamaWorker.model_config w;
     OllamaWorker.is_cancelled := OllamaWorker.is_cancelled w;
     OllamaWorker.full_response := OllamaWorker.full_response w |}.

(** The thread [th] once the list it shares holds [msgs]. *)
Definition sharing (msgs : list ChatMessage) (th : thread) : thread :=
  {| worker := set_messages (worker th) msgs; pending := pending th |}.

(** [self.message_history.append(msg)] *)
Definition history_append (app : t) (msg : ChatMessage) : t :=
  let history := message_history app ++ [msg] in
  {| input_text := input_text app; current_model := current_model app;
     message_history := history;
     ollama_worker := option_map (sharing history) (ollama_worker app);
     api_config := api_config app; model_config := model_config app |}.

(** [QThread.quit()]: asks the event loop of the thread to leave.
    [OllamaWorker.run] is overridden and never enters an event loop, so
    the call changes nothing the worker looks at. *)
Definition thread_quit (th : thread) : thread := th.

(** [QThread.wait()]: blocks the caller until [run] has returned.  The
    worker goes through the rest of its stream meanwhile; the result is
    what it emits on the way and the finished thread. *)
Definition thread_wait (th : thread) : list OllamaWorker.Signal * thread :=
  let '(out, w) := OllamaWorker.stream_loop (worker th) (pending th) in
  (out, {| worker := w; pending := [] |}).

(** What a call of [send_message] leaves behind.  The signals that the
    prior worker emits during the wait go to the window through queued
    connections: they are delivered once [send_message] has returned. *)
Record sent := {
  window : t;                                 (* the window afterwards *)
  prior_signals : list OllamaWorker.Signal;  (* emitted by the prior worker *)
  prior_thread : option thread               (* the prior worker, stopped *)
}.

(** [send_message]; [now] is the clock read by [ChatMessage.__post_init__]
    and [response] the stream the server will answer the new request
    with. *)
Definition send_message (app : t) (now : Z)
    (response : list (stream_event OllamaWorker.Chunk)) : sent :=
  let text := PyStr.strip (input_text app) in
  if negb (PyStr.truthy text) then
    {| window := app; prior_signals := []; prior_thread := None |}
  else if negb (PyStr.truthy (current_model app)) then
    {| window := app; prior_signals := []; prior_thread := None |}
  else
    let user_message :=
      {| role := "user"; content := text; timestamp := now;
         model := current_model app; tokens := 0 |} in
    let appended := history_append app user_message in
    let '(out, prior) :=
      match ollama_worker appended with
      | Some th =>
          let '(out, th') := thread_wait (thread_quit th) in (out, Some th')
      | None => ([], None)
      end in
    let started :=
      {| worker := OllamaWorker.init (current_model app)
                     (message_history appended)
                     (api_config app) (model_config app);
         pending := response |} in
    {| window :=
         {| input_text := EmptyString; current_model := current_model app;
            message_history := message_history appended;
            ollama_worker := Some started;
            api_config := api_config app; model_config := model_config app |};
       prior_signals := out;
       prior_thread := prior |}.

End MainWindow.

(* ------------------------------------------------------------------ *)
(** * Python numbers: binary64 floats over the IEEE 754 specification *)

(** The outcome of an expression that may raise: the value, or [str(e)]
    of the exception. *)
Inductive result (A : Type) : Type :=
  | Ok (a : A)
  | Exn (msg : string).

Arguments Ok {A} a.
Arguments Exn {A} msg.

Module PyFloat.
Import SpecFloat.

Definition prec : Z := 53.
Definition emax : Z := 1024.

Definition of_Z (n : Z) : spec_float := binary_normalize prec emax n 0 false.

(** [float(n)] for an int: the nearest double, ties to even. *)
Definition of_int (n : Z) : result spec_float :=
  match of_Z n with
  | S754_infinity _ => Exn "int too large to convert to float"
  | x => Ok x
  end.

(** The integer [n <> 0] as an exact, not yet rounded, binary value. *)
Definition exact (n : Z) : spec_float :=
  S754_finite (n <? 0) (Z.to_pos (Z.abs n)) 0.

(** [a / b] for two ints: the correctly rounded quotient. *)
Definition int_true_divide (a b : Z) : result spec_float :=
  if b =? 0 then Exn "division by zero"
  else if a =? 0 then Ok (S754_zero (b <? 0))
  else match SFdiv prec emax (exact a) (exact b) with
       | S754_infinity _ => Exn "integer division result too large for a float"
       | x => Ok x
       end.

(** [x * n] for a float and an int. *)
Definition mul_int (x : spec_float) (n : Z) : result spec_float :=
  match of_int n with
  | Ok y => Ok (SFmul prec emax x y)
  | Exn msg => Exn msg
  end.

(** [int(x)]: truncation towards zero. *)
Definition to_int (x : spec_float) : result Z :=
  match x with
  | S754_zero _ => Ok 0
  | S754_finite s m e =>
      let a := if 0 <=? e then Z.pos m * 2 ^ e else Z.pos m / 2 ^ (- e) in
      Ok (if s then - a else a)
  | S754_infinity _ => Exn "cannot convert float infinity to integer"
  | S754_nan => Exn "cannot convert float NaN to integer"
  end.

(** The integer nearest to [p / q], ties to the even one ([0 <= p], [0 < q]). *)
Definition round_half_even (p q : Z) : Z :=
  let d := p / q in
  match 2 * (p mod q) ?= q with
  | Lt => d
  | Gt => d + 1
  | Eq => if Z.even d then d else d + 1
  end.

(** The text of a number of tenths: ["12.5"] for 125. *)
Definition tenths (t : Z) : string :=
  (PyStr.of_int (t / 10) ++ "." ++ PyStr.of_int (t mod 10))%string.

Definition sign (s : bool) : string := if s then "-" else EmptyString.

(** [f"{x:.1f}"]: the exact value of the double rounded to one decimal
    place, ties to even. *)
Definition format_1f (x : spec_float) : string :=
  match x with
  | S754_zero s => (sign s ++ "0.0")%string
  | S754_infinity s => (sign s ++ "inf")%string
  | S754_nan => "nan"
  | S754_finite s m e =>
      let t := if 0 <=? e then 10 * Z.pos m * 2 ^ e
               else round_half_even (10 * Z.pos m) (2 ^ (- e)) in
      (sign s ++ tenths t)%string
  end.

Definition ltb : spec_float -> spec_float -> bool := SFltb.
Definition div : spec_float -> spec_float -> spec_float := SFdiv prec emax.

(** The literal [1024.0]. *)
Definition f1024 : spec_float := S754_finite false 4503599627370496 (-42).

End PyFloat.

(* ------------------------------------------------------------------ *)
(** * ModelManager (workers.py) *)

Module ModelManager.

(** One progress update of [client.pull(..., stream=True)]; [None] is
    an absent key. *)
Record Progress := {
  total : option Z;
  completed : option Z;
  status : option string
}.

(** The signals of the manager that a pull can emit. *)
Inductive Signal :=
  | model_pulled (name : string)
  | pull_progress (value : Z) (text : string)
  | error_occurred (text : string).

Inductive action :=
  | Pull (url : string) (name : string)     (* the request to the server *)
  | Emit (s : Signal).

Record t := {
  api_config : APIConfig;
  operation : option string;
  model_name : option string;
  is_cancelled : bool
}.

(** [__init__] *)
Definition init (api : APIConfig) : t :=
  {| api_config := api; operation := None; model_name := None;
     is_cancelled := false |}.

(** [pull_model], up to [self.start()] *)
Definition pull_model (m : t) (name : string) : t :=
  {| api_config := api_config m; operation := Some "pull";
     model_name := Some name; is_cancelled := false |}.

(** [cancel_operation] *)
Definition cancel_operation (m : t) : t :=
  {| api_config := api_config m; operation := operation m;
     model_name := model_name m; is_cancelled := true |}.

(** [int((completed_size / total_size) * 100)] *)
Definition percentage (completed_size total_size : Z) : result Z :=
  match PyFloat.int_true_divide completed_size total_size with
  | Exn msg => Exn msg
  | Ok q =>
      match PyFloat.mul_int q 100 with
      | Exn msg => Exn msg
      | Ok x => PyFloat.to_int x
      end
  end.

Definition download_failed (m : t) (msg : string) : Signal :=
  error_occurred
    ("Failed to download to remote server " ++ base_url (api_config m)
     ++ ": " ++ msg)%string.

(** What the [except] clause of [_pull_model] emits. *)
Definition on_exception (m : t) (msg : string) : list Signal :=
  if is_cancelled m then [] else [download_failed m msg].

Definition get_status (p : Progress) : string :=
  match status p with Some s => s | None => "Downloading..." end.

Definition update (field : option Z) (old : Z) : Z :=
  match field with Some v => v | None => old end.

(** The [for progress in client.pull(...)] loop with what follows it,
    inside the [try]; [total_size] and [completed_size] are the two
    local variables. *)
Fixpoint pull_loop (m : t) (name : string) (total_size completed_size : Z)
    (stream : list (stream_event Progress)) : list Signal * t :=
  match stream with
  | [] => (if is_cancelled m then [] else [model_pulled name], m)
  | CancelRequest :: rest =>
      pull_loop (cancel_operation m) name total_size completed_size rest
  | Raise msg :: _ => (on_exception m msg, m)
  | Deliver progress :: rest =>
      if is_cancelled m then ([pull_progress 0 "Download cancelled"], m)
      else
        let total_size := update (total progress) total_size in
        let completed_size := update (completed progress) completed_size in
        let status := get_status progress in
        if 0 <? total_size then
          match percentage completed_size total_size with
          | Exn msg => (on_exception m msg, m)
          | Ok pct =>
              let '(out, m') :=
                pull_loop m name total_size completed_size rest in
              (pull_progress pct
                 ("Downloading to remote server: " ++ status ++ " ("
                  ++ PyStr.of_int pct ++ "%)")%string :: out, m')
          end
        else
          let '(out, m') :=
            pull_loop m name total_size completed_size rest in
          (pull_progress (-1) ("Remote download: " ++ status)%string :: out, m')
  end.

(** [_pull_model] *)
Definition _pull_model (m : t) (stream : list (stream_event Progress))
    : list action * t :=
  match model_name m with
  | None => ([Emit (error_occurred "No model name provided")], m)
  | Some name =>
      if negb (PyStr.truthy name)
      then ([Emit (error_occurred "No model name provided")], m)
      else
        let '(out, m') := pull_loop m name 0 0 stream in
        (Emit (pull_progress (-1)
                 ("Starting download of " ++ name ++ " to remote server...")%string)
           :: Pull (base_url (api_config m)) name
           :: map Emit out, m')
  end.

Definition signals (acts : list action) : list Signal :=
  flat_map (fun a => match a with Emit s => [s] | Pull _ _ => [] end) acts.

Definition is_pull (a : action) : bool :=
  match a with Pull _ _ => true | Emit _ => false end.

Definition is_pulled (s : Signal) : bool :=
  match s with model_pulled _ => true | _ => false end.

(** ** The progress events of a pull, update by update *)

(** The values of one field among the updates received, in order. *)
Definition received (field : Progress -> option Z) (seen : list Progress)
    : list Z :=
  flat_map (fun p => match field p with Some v => [v] | None => [] end) seen.

(** The most recent value of a field, [start] as long as none has come. *)
Definition last_value (start : Z) (field : Progress -> option Z)
    (seen : list Progress) : Z :=
  last (received field seen) start.

(** The event that answers the update [p], [seen] being the updates
    received up to and including [p]: a percentage when the most recent
    total is positive, the indeterminate [-1] otherwise. *)
Definition progress_event (total0 completed0 : Z) (seen : list Progress)
    (p : Progress) : result Signal :=
  let total_size := last_value total0 total seen in
  let completed_size := last_value completed0 completed seen in
  if 0 <? total_size then
    match percentage completed_size total_size with
    | Ok pct =>
        Ok (pull_progress pct
              ("Downloading to remote server: " ++ get_status p ++ " ("
               ++ PyStr.of_int pct ++ "%)")%string)
    | Exn msg => Exn msg
    end
  else Ok (pull_progress (-1) ("Remote download: " ++ get_status p)%string).

Definition no_update : Progress :=
  {| total := None; completed := None; status := None |}.

(** One event per update, in the order of the updates. *)
Definition progress_events (total0 completed0 : Z) (ps : list Progress)
    : list (result Signal) :=
  map (fun i => progress_event total0 completed0 (firstn (S i) ps)
                  (nth i ps no_update))
      (seq 0 (List.length ps)).

(** The events are emitted one after the other up to the first that
    raises, which ends the pull with the error event; [finish] is what is
    emitted after the last one when none raises. *)
Fixpoint settle (m : t) (events : list (result Signal))
    (finish : list Signal) : list Signal :=
  match events with
  | [] => finish
  | Ok s :: rest => s :: settle m rest finish
  | Exn msg :: _ => [download_failed m msg]
  end.

Definition starting (name : string) : Signal :=
  pull_progress (-1)
    ("Starting download of " ++ name ++ " to remote server...")%string.

Definition cancelled_update : Signal := pull_progress 0 "Download cancelled".

(** What a pull still emits once it has been asked to stop: the
    cancellation update when a further update arrives, nothing when the
    stream ends or breaks first. *)
Fixpoint after_cancel (rest : list (stream_event Progress)) : list Signal :=
  match rest with
  | Deliver _ :: _ => [cancelled_update]
  | CancelRequest :: rest' => after_cancel rest'
  | Raise _ :: _ => []
  | [] => []
  end.

Definition units : list string := ["B"; "KB"; "MB"; "GB"; "TB"].

(** The [for unit in [...]] loop of [_format_size] with the [return]
    after it. *)
Fixpoint format_loop (units : list string) (size : SpecFloat.spec_float)
    : string :=
  match units with
  | [] => (PyFloat.format_1f size ++ " PB")%string
  | unit :: rest =>
      if PyFloat.ltb size PyFloat.f1024
      then (PyFloat.format_1f size ++ " " ++ unit)%string
      else format_loop rest (PyFloat.div size PyFloat.f1024)
  end.

(** [_format_size] *)
Definition _format_size (size_bytes : Z) : result string :=
  if size_bytes =? 0 then Ok "Unknown"
  else match PyFloat.of_int size_bytes with
       | Exn msg => Exn msg
       | Ok size => Ok (format_loop units size)
       end.

End ModelManager.

(* ------------------------------------------------------------------ *)
(** * The slots of the window that keep the transcript (main_window.py) *)

Module MainWindowSlots.

(** [on_response_received]; [now] is the clock read by
    [ChatMessage.__post_init__]. *)
Definition on_response_received (app : MainWindow.t) (now : Z)
    (response : string) : MainWindow.t :=
  let assistant_message :=
    {| role := "assistant"; content := response; timestamp := now;
       model := MainWindow.current_model app; tokens := 0 |} in
  MainWindow.history_append app assistant_message.

(** The connections that [send_message] makes for a worker:
    [message_complete] goes to [on_response_received] and
    [error_occurred] to [on_error], which shows a message box and
    touches the send button and the status bar only; [message_chunk] is
    connected to nothing. *)
Definition deliver (now : Z) (app : MainWindow.t)
    (s : OllamaWorker.Signal) : MainWindow.t :=
  match s with
  | OllamaWorker.message_complete response =>
      on_response_received app now response
  | OllamaWorker.error_occurred _ => app
  | OllamaWorker.message_chunk _ => app
  end.

(** The signals of a worker delivered to the window, in order. *)
Definition deliver_all (now : Z) (app : MainWindow.t)
    (out : list OllamaWorker.Signal) : MainWindow.t :=
  fold_left (deliver now) out app.

(** The texts of the completion events among [out], in order. *)
Definition completions (out : list OllamaWorker.Signal) : list string :=
  flat_map (fun s => match s with
                     | OllamaWorker.message_complete text => [text]
                     | _ => []
                     end) out.

(** [start()] returns at once.  The new thread then runs up to its
    [for msg in self.messages] while the GUI thread, back in its event
    loop, delivers the signals that the prior worker emitted during the
    wait, in the order of their emission.  [at_read clock s early] is the
    window at the time the new thread reads the list, the first [early]
    of these signals having been delivered; its worker holds the list as
    the thread finds it. *)
Definition at_read (clock : Z) (s : MainWindow.sent) (early : nat)
    : MainWindow.t :=
  deliver_all clock (MainWindow.window s)
    (firstn early (MainWindow.prior_signals s)).

(** No earlier worker is still streaming. *)
Definition idle (app : MainWindow.t) : Prop :=
  match MainWindow.ollama_worker app with
  | Some th => MainWindow.pending th = []
  | None => True
  end.

(** The message that [send_message] adds to the transcript. *)
Definition user_message (app : MainWindow.t) (now : Z) : ChatMessage :=
  {| role := "user"; content := PyStr.strip (MainWindow.input_text app);
     timestamp := now; model := MainWindow.current_model app; tokens := 0 |}.

(** The message that [on_response_received] adds to the transcript. *)
Definition assistant_message (app : MainWindow.t) (now : Z)
    (response : string) : ChatMessage :=
  {| role := "assistant"; content := response; timestamp := now;
     model := MainWindow.current_model app; tokens := 0 |}.

End MainWindowSlots.

(* ------------------------------------------------------------------ *)
(** * ModelDownloadDialog._format_size (dialogs.py) *)

Module Dialogs.

(** The value of [size_bytes]: the int passed in, and a float once it
    has been divided. *)
Inductive number :=
  | Int (n : Z)
  | Float (x : SpecFloat.spec_float).

(** [size_bytes < 1024.0]; an int compares with a float by its exact
    value. *)
Definition below_1024 (v : number) : bool :=
  match v with
  | Int n => n <? 1024
  | Float x => PyFloat.ltb x PyFloat.f1024
  end.

(** [size_bytes / 1024.0] *)
Definition div_1024 (v : number) : result SpecFloat.spec_float :=
  match v with
  | Int n =>
      match PyFloat.of_int n with
      | Ok x => Ok (PyFloat.div x PyFloat.f1024)
      | Exn msg => Exn msg
      end
  | Float x => Ok (PyFloat.div x PyFloat.f1024)
  end.

(** [f"{int(size_bytes)}"] *)
Definition int_text (v : number) : result string :=
  match v with
  | Int n => Ok (PyStr.of_int n)
  | Float x =>
      match PyFloat.to_int x with
      | Ok n => Ok (PyStr.of_int n)
      | Exn msg => Exn msg
      end
  end.

(** [f"{size_bytes:.1f}"] *)
Definition fixed_text (v : number) : result string :=
  match v with
  | Int n =>
      match PyFloat.of_int n with
      | Ok x => Ok (PyFloat.format_1f x)
      | Exn msg => Exn msg
      end
  | Float x => Ok (PyFloat.format_1f x)
  end.

Definition with_unit (text : result string) (unit : string) : result string :=
  match text with
  | Ok s => Ok (s ++ " " ++ unit)%string
  | Exn msg => Exn msg
  end.

Definition units : list string := ["B"; "KB"; "MB"; "GB"; "TB"].

(** The [for unit in [...]] loop with the [return] after it. *)
Fixpoint format_loop (units : list string) (size_bytes : number)
    : result string :=
  match units with
  | [] => with_unit (fixed_text size_bytes) "PB"
  | unit :: rest =>
      if below_1024 size_bytes then
        if String.eqb unit "B"
        then with_unit (int_text size_bytes) unit
        else with_unit (fixed_text size_bytes) unit
      else
        match div_1024 size_bytes with
        | Ok x => format_loop rest (Float x)
        | Exn msg => Exn msg
        end
  end.

(** [_format_size] *)
Definition _format_size (size_bytes : Z) : result string :=
  if size_bytes =? 0 then Ok "0 B"
  else format_loop units (Int size_bytes).

End Dialogs.

(* ------------------------------------------------------------------ *)
(** * ModelManager._load_models (workers.py) *)

Module ModelList.

Definition dict := list (string * string).

(** [ModelInfo] of models.py. *)
Record ModelInfo := {
  name : string;
  size : string;
  modified : string;
  digest : string;
  details : dict
}.

(** One element of the list the server answers with, in one of the two
    shapes [_load_models] accepts.  [None] is an absent attribute or key;
    texts are what [str] makes of the value; [details] holds [None] when
    the value is not a dict. *)
Inductive entry :=
  | ModelObject (model : option string) (size : option Z)
      (modified_at digest : option string) (details : option (option dict))
  | ModelDict (name : option string) (size : option Z)
      (modified_at digest : option string) (details : option (option dict)).

Definition get {A} (field : option A) (default : A) : A :=
  match field with Some v => v | None => default end.

(** [details if isinstance(details, dict) else {}], the default of the
    lookup being the empty dict. *)
Definition get_details (field : option (option dict)) : dict :=
  match field with
  | Some (Some d) => d
  | Some None => []
  | None => []
  end.

(** The body of the loop, from the shape test to the [ModelInfo]. *)
Definition model_info (model : entry) : result ModelInfo :=
  let '(name, size, modified, digest, details) :=
    match model with
    | ModelObject m size modified_at digest details =>
        ((match m with
          | Some s => if PyStr.truthy s then s else "Unknown"
          | None => "Unknown"
          end),
         get size 0, get modified_at EmptyString, get digest EmptyString,
         details)
    | ModelDict n size modified_at digest details =>
        (get n "Unknown", get size 0, get modified_at EmptyString,
         get digest EmptyString, details)
    end in
  match ModelManager._format_size size with
  | Exn msg => Exn msg
  | Ok text =>
      Ok {| name := name; size := text; modified := modified;
            digest := digest; details := get_details details |}
  end.

(** The signals of the manager that a listing can emit. *)
Inductive Signal :=
  | models_loaded (models : list ModelInfo)
  | error_occurred (text : string).

Definition connect_failed (m : ModelManager.t) (msg : string) : Signal :=
  error_occurred
    ("Failed to connect to remote server "
     ++ base_url (ModelManager.api_config m) ++ ": " ++ msg)%string.

(** What the [except] clause of [_load_models] emits. *)
Definition on_exception (m : ModelManager.t) (msg : string) : list Signal :=
  if ModelManager.is_cancelled m then [] else [connect_failed m msg].

(** The [for model in models_data] loop with what follows it, inside the
    [try]; the stream holds the models of the answer, an exception when
    [client.list()] raises, and the cancel requests that come
    meanwhile. *)
Fixpoint load_loop (m : ModelManager.t) (model_list : list ModelInfo)
    (models_data : list (stream_event entry)) : list Signal :=
  match models_data with
  | [] =>
      if ModelManager.is_cancelled m then [] else [models_loaded model_list]
  | CancelRequest :: rest =>
      load_loop (ModelManager.cancel_operation m) model_list rest
  | Raise msg :: _ => on_exception m msg
  | Deliver model :: rest =>
      if ModelManager.is_cancelled m then []
      else match model_info model with
           | Exn msg => on_exception m msg
           | Ok info => load_loop m (model_list ++ [info]) rest
           end
  end.

(** [load_models], up to [self.start()] *)
Definition load_models (m : ModelManager.t) : ModelManager.t :=
  {| ModelManager.api_config := ModelManager.api_config m;
     ModelManager.operation := Some "load";
     ModelManager.model_name := ModelManager.model_name m;
     ModelManager.is_cancelled := false |}.

(** [_load_models] *)
Definition _load_models (m : ModelManager.t)
    (models_data : list (stream_event entry)) : list Signal :=
  load_loop m [] models_data.

(** [on_installed_models_loaded], up to the names put in the combo box. *)
Definition installed_names (models : list ModelInfo) : list string :=
  Catalog.filter_valid_models (map name models).

(** [x in l] for a list of strings. *)
Definition mem (x : string) (l : list string) : bool :=
  existsb (String.eqb x) l.

(** [on_installed_models_loaded]: the model to select once the names are
    in the combo box, [None] when the selection is left to the box.  The
    default model comes first, then the text the box showed before. *)
Definition model_to_select (default_model current_text : string)
    (filtered_models : list string) : option string :=
  let model_to_select :=
    if andb (PyStr.truthy default_model) (mem default_model filtered_models)
    then Some default_model
    else if mem current_text filtered_models then Some current_text
    else None in
  match model_to_select with
  | Some x => if PyStr.truthy x then Some x else None
  | None => None
  end.

End ModelList.

(* ------------------------------------------------------------------ *)
(** * Sample configurations, for the concrete runs below *)

Definition example_api : APIConfig :=
  {| host := "localhost"; port := 11434; timeout := 60 |}.

Definition example_config : ModelConfig :=
  {| temperature := SpecFloat.S754_zero false;
     top_p := SpecFloat.S754_zero false;
     num_predict := 2048; num_ctx := 4096; system_prompt := EmptyString |}.

(* ================================================================== *)
(** * Properties of the model catalog filter *)

Section CatalogFacts.

Lemma insert_hd (x : string) (l : list string) (y : string) :
  HdRel PyStr.le y l -> PyStr.le y x -> HdRel PyStr.le y (PyStr.insert x l).
Proof.
  intros Hl Hx. destruct l as [|z r]; simpl.
  - constructor. exact Hx.
  - destruct (String.leb x z); constructor.
    + exact Hx.
    + inversion Hl; assumption.
Qed.

Lemma insert_ascending (x : string) (l : list string) :
  Sorted PyStr.le l -> Sorted PyStr.le (PyStr.insert x l).
Proof.
  induction 1 as [|y r Hr IH Hhd]; simpl.
  - repeat constructor.
  - destruct (String.leb x y) eqn:E.
    + constructor; [constructor; assumption | constructor; exact E].
    + constructor; [exact IH|].
      apply insert_hd; [exact Hhd|].
      destruct (String.leb_total x y) as [H|H]; [congruence | exact H].
Qed.

Lemma sorted_ascending (l : list string) : Sorted PyStr.le (PyStr.sorted l).
Proof.
  induction l as [|x r IH]; simpl; [constructor | now apply insert_ascending].
Qed.

Lemma sorted_fixed (l : list string) : Sorted PyStr.le l -> PyStr.sorted l = l.
Proof.
  induction 1 as [|x r Hr IH Hhd]; simpl; [reflexivity|].
  rewrite IH. destruct Hhd as [|y r' Hxy]; simpl; [reflexivity|].
  unfold PyStr.le in Hxy. now rewrite Hxy.
Qed.

Lemma insert_In (x y : string) (l : list string) :
  In y (PyStr.insert x l) -> y = x \/ In y l.
Proof.
  induction l as [|z r IH]; simpl.
  - intros [H|[]]; auto.
  - destruct (String.leb x z); simpl.
    + intros [H|H]; auto.
    + intros [H|H]; auto. destruct (IH H); auto.
Qed.

Lemma sorted_In (y : string) (l : list string) :
  In y (PyStr.sorted l) -> In y l.
Proof.
  induction l as [|x r IH]; simpl; [tauto|].
  intros H. destruct (insert_In _ _ _ H); auto.
Qed.

Lemma filter_loop_filter (models acc : list string) :
  Catalog.filter_loop models acc = acc ++ filter Catalog.accepts models.
Proof.
  revert acc. induction models as [|x r IH]; intros acc; simpl.
  - now rewrite app_nil_r.
  - destruct (Catalog.accepts x); rewrite IH; [|reflexivity].
    now rewrite <- app_assoc.
Qed.

Lemma filter_keeps_all {A} (p : A -> bool) (l : list A) :
  (forall x, In x l -> p x = true) -> filter p l = l.
Proof.
  induction l as [|x r IH]; simpl; intros H; [reflexivity|].
  rewrite (H x (or_introl eq_refl)), IH; auto.
Qed.

(** Every name the filter returns is one it accepted. *)
Lemma filter_valid_models_accepted (models : list string) (x : string) :
  In x (Catalog.filter_valid_models models) -> Catalog.accepts x = true.
Proof.
  unfold Catalog.filter_valid_models. rewrite filter_loop_filter. simpl.
  intros H. apply sorted_In in H. apply filter_In in H. tauto.
Qed.

(** C3: on the list of the specification the filter returns exactly
    the two names [codellama:latest] and [llama3.2:latest], in
    ascending order. *)
Theorem filter_valid_models_example :
  Catalog.filter_valid_models
    ["llama3.2:latest"; "llama3.2:test"; "vision-model:latest";
     "70b-llama:latest"; "codellama:latest"]
  = ["codellama:latest"; "llama3.2:latest"].
Proof. vm_compute. reflexivity. Qed.

(** C9: the filter is idempotent: filtering its own output returns
    that output unchanged, for every list of model names. *)
Theorem filter_valid_models_idempotent (xs : list string) :
  Catalog.filter_valid_models (Catalog.filter_valid_models xs)
  = Catalog.filter_valid_models xs.
Proof.
  unfold Catalog.filter_valid_models at 1.
  rewrite filter_loop_filter. simpl.
  rewrite filter_keeps_all by apply filter_valid_models_accepted.
  apply sorted_fixed. apply sorted_ascending.
Qed.

End CatalogFacts.

(* ================================================================== *)
(** * Properties of Python's [strip] *)

Section StripFacts.

(** Induction on a string whose characters take one, two or three
    bytes. *)
Lemma string_ind3 (P : string -> Prop) :
  P EmptyString ->
  (forall a r,
     P r ->
     (forall b r2, r = String b r2 -> P r2) ->
     (forall b c r3, r = String b (String c r3) -> P r3) ->
     P (String a r)) ->
  forall s, P s.
Proof.
  intros H0 Hstep.
  assert (H : forall s,
             P s /\
             (forall b r2, s = String b r2 -> P r2) /\
             (forall b c r3, s = String b (String c r3) -> P r3)).
  { induction s as [|a r (IH1 & IH2 & IH3)].
    - repeat split; [exact H0 | discriminate | discriminate].
    - repeat split.
      + now apply Hstep.
      + intros b r2 E. injection E as _ <-. exact IH1.
      + intros b c r3 E. injection E as _ E. exact (IH2 c r3 E). }
  intros s. apply H.
Qed.

Lemma lstrip_blank (s : string) :
  PyStr.blank s = true -> PyStr.lstrip s = EmptyString.
Proof.
  induction s as [|a r IH1 IH2 IH3] using string_ind3; [reflexivity|].
  cbn [PyStr.blank PyStr.lstrip]. destruct (PyStr.isspace a); [exact IH1|].
  destruct r as [|b r2]; [discriminate|].
  destruct (PyStr.isspace2 a b); [exact (IH2 b r2 eq_refl)|].
  destruct r2 as [|c r3]; [discriminate|].
  destruct (PyStr.isspace3 a b c); [exact (IH3 b c r3 eq_refl) | discriminate].
Qed.

(** What [lstrip] leaves is white space only when the whole text is. *)
Lemma blank_lstrip (s : string) :
  PyStr.blank (PyStr.lstrip s) = PyStr.blank s.
Proof.
  induction s as [|a r IH1 IH2 IH3] using string_ind3; [reflexivity|].
  cbn [PyStr.lstrip].
  destruct (PyStr.isspace a) eqn:Ea.
  { rewrite IH1. cbn [PyStr.blank]. now rewrite Ea. }
  destruct r as [|b r2]; [reflexivity|].
  destruct (PyStr.isspace2 a b) eqn:Eb.
  { rewrite (IH2 b r2 eq_refl). cbn [PyStr.blank]. now rewrite Ea, Eb. }
  destruct r2 as [|c r3]; [reflexivity|].
  destruct (PyStr.isspace3 a b c) eqn:Ec; [|reflexivity].
  rewrite (IH3 b c r3 eq_refl). cbn [PyStr.blank]. now rewrite Ea, Eb, Ec.
Qed.

Lemma rstrip_cons (c : ascii) (r : string) :
  PyStr.rstrip (String c r)
  = if PyStr.blank (String c r) then EmptyString
    else String c (PyStr.rstrip r).
Proof. reflexivity. Qed.

(** [s.strip()] is empty exactly when [s] holds white space only. *)
Lemma strip_truthy (s : string) :
  PyStr.truthy (PyStr.strip s) = negb (PyStr.blank s).
Proof.
  unfold PyStr.strip. destruct (PyStr.blank s) eqn:E; simpl.
  - now rewrite lstrip_blank.
  - pose proof (blank_lstrip s) as H. rewrite E in H.
    destruct (PyStr.lstrip s) as [|c r]; [discriminate H|].
    now rewrite rstrip_cons, H.
Qed.

(** The white space of Unicode beyond ASCII is removed as well: here the
    ideographic space U+3000 (E3 80 80) before the text and the no-break
    space U+00A0 (C2 A0) after it.  The zero width space U+200B
    (E2 80 8B) is no white space and stays. *)
Lemma strip_unicode_space :
  let ideographic := String "227" (String "128" (String "128" EmptyString)) in
  let no_break := String "194" (String "160" EmptyString) in
  let zero_width := String "226" (String "128" (String "139" EmptyString)) in
  PyStr.strip (ideographic ++ " hi" ++ no_break ++ " ") = "hi" /\
  PyStr.blank (ideographic ++ no_break) = true /\
  PyStr.strip (zero_width ++ " ") = zero_width.
Proof. repeat split. Qed.

End StripFacts.

(* ================================================================== *)
(** * Properties of the chat worker *)

Section WorkerFacts.

Import OllamaWorker.

Lemma append_assoc (a b c : string) :
  ((a ++ b) ++ c)%string = (a ++ (b ++ c))%string.
Proof. induction a as [|x a IH]; simpl; [reflexivity | now rewrite IH]. Qed.

Lemma append_empty_r (a : string) : (a ++ EmptyString)%string = a.
Proof. induction a as [|x a IH]; simpl; [reflexivity | now rewrite IH]. Qed.

Lemma fragments_cons (c : Chunk) (cs : list Chunk) :
  fragments (c :: cs)
  = if PyStr.truthy (get_content c) then get_content c :: fragments cs
    else fragments cs.
Proof. reflexivity. Qed.

(** The loop over a run of chunks none of which is the last one: every
    non-empty fragment is emitted and accumulated, and the loop goes on
    with what follows. *)
Lemma stream_loop_chunks (cs : list Chunk) :
  forall (w : t) (tail : list (stream_event Chunk)),
    is_cancelled w = false ->
    Forall (fun c => get_done c = false) cs ->
    exists w',
      is_cancelled w' = false /\
      full_response w'
        = (full_response w ++ PyStr.join (fragments cs))%string /\
      stream_loop w (map Deliver cs ++ tail)
        = (map message_chunk (fragments cs) ++ fst (stream_loop w' tail),
           snd (stream_loop w' tail)).
Proof.
  induction cs as [|c cs IH]; intros w tail Hw Hcs.
  - exists w. simpl. rewrite append_empty_r.
    repeat split; auto. now destruct (stream_loop w tail).
  - inversion Hcs as [|c' cs' Hc Hcs']; subst.
    simpl map. simpl app. cbn [stream_loop]. rewrite Hw, Hc.
    rewrite fragments_cons.
    destruct (PyStr.truthy (get_content c)) eqn:E.
    + destruct (IH (add_response w (get_content c)) tail Hw Hcs')
        as (w' & Hw' & Hfull & Hloop).
      exists w'. rewrite Hloop. simpl.
      repeat split; auto.
      rewrite Hfull. simpl. apply append_assoc.
    + destruct (IH w tail Hw Hcs') as (w' & Hw' & Hfull & Hloop).
      exists w'. rewrite Hloop. simpl. repeat split; auto.
Qed.

Lemma signals_emit (out : list Signal) : signals (map Emit out) = out.
Proof. induction out as [|s out IH]; simpl; [reflexivity | now rewrite IH]. Qed.

Lemma run_signals (w : t) (response : list (stream_event Chunk)) :
  is_cancelled w = false ->
  signals (fst (run w response)) = fst (stream_loop w response).
Proof.
  intros Hw. unfold run. rewrite Hw.
  destruct (stream_loop w response) as [out w']. simpl. apply signals_emit.
Qed.

Lemma count_chunks (p : Signal -> bool) (l : list string) :
  (forall s, p (message_chunk s) = false) ->
  count p (map message_chunk l) = 0%nat.
Proof.
  intros Hp. unfold count. induction l as [|s l IH]; simpl; [reflexivity|].
  now rewrite Hp.
Qed.

Lemma join_app (a b : list string) :
  PyStr.join (a ++ b) = (PyStr.join a ++ PyStr.join b)%string.
Proof.
  induction a as [|x a IH]; simpl; [reflexivity|].
  unfold PyStr.join in *. simpl. rewrite IH. now rewrite append_assoc.
Qed.

Lemma fragments_app (a b : list Chunk) :
  fragments (a ++ b) = fragments a ++ fragments b.
Proof. unfold fragments. now rewrite map_app, filter_app. Qed.



(** C2, as amended: when the stream of a running worker ends and no
    chunk carried [done], no cancellation being requested, the worker
    emits its content events and nothing else: no error event and no
    completion event.  When the stream breaks by an exception instead,
    exactly that error is emitted after the content events. *)
Theorem run_stream_without_done (w : t) (cs : list Chunk) :
  is_cancelled w = false ->
  Forall (fun c => get_done c = false) cs ->
  let ended := signals (fst (run w (map Deliver cs))) in
  ended = map message_chunk (fragments cs) /\
  count is_error ended = 0%nat /\
  count is_complete ended = 0%nat /\
  forall msg rest,
    signals (fst (run w (map Deliver cs ++ Raise msg :: rest)))
    = map message_chunk (fragments cs) ++ [error_occurred msg].
Proof.
  intros Hw Hcs ended.
  assert (He : ended = map message_chunk (fragments cs)).
  { unfold ended. rewrite run_signals by exact Hw.
    destruct (stream_loop_chunks cs w [] Hw Hcs) as (w' & _ & _ & Hloop).
    rewrite app_nil_r in Hloop. rewrite Hloop. simpl. apply app_nil_r. }
  split; [exact He|]. rewrite He.
  split; [now apply count_chunks|]. split; [now apply count_chunks|].
  intros msg rest. rewrite run_signals by exact Hw.
  destruct (stream_loop_chunks cs w (Raise msg :: rest) Hw Hcs)
    as (w' & Hw' & _ & Hloop).
  rewrite Hloop. simpl. now rewrite Hw'.
Qed.

Lemma run_stream_without_done_witness :
  let w := init "llama3" [] example_api example_config in
  let cs := [ {| chunk_content := Some "Hi"; chunk_done := Some false |} ] in
  signals (fst (run w (map Deliver cs))) = [message_chunk "Hi"].
Proof.
  intros w cs.
  refine (proj1 (run_stream_without_done w cs _ _));
    [reflexivity | repeat constructor].
Defined.

(** The claim C2 fails on a stream of one chunk without [done]: the
    worker emits the fragment and no error event. *)
Lemma run_stream_end_is_silent :
  let w := init "llama3" [] example_api example_config in
  let response :=
    [ Deliver {| chunk_content := Some "Hi"; chunk_done := Some false |} ] in
  let out := signals (fst (run w response)) in
  no_cancel response /\
  (forall c, In (Deliver c) response -> get_done c = false) /\
  out = [message_chunk "Hi"] /\
  count is_error out <> 1%nat.
Proof.
  repeat split.
  - intros [H|[]]; discriminate.
  - intros c [H|[]]. now inversion H.
  - discriminate.
Qed.

(** C6: a stream that delivers chunks up to one that carries [done],
    with no cancellation before it, makes a fresh worker emit one content
    event for each non-empty fragment, in order of arrival, and then one
    completion event that carries the concatenation of these fragments. *)
Theorem run_stream_done (m : string) (msgs : list ChatMessage)
    (api : APIConfig) (cfg : ModelConfig)
    (cs : list Chunk) (d : Chunk) (rest : list (stream_event Chunk)) :
  Forall (fun c => get_done c = false) cs ->
  get_done d = true ->
  signals (fst (run (init m msgs api cfg)
                    (map Deliver cs ++ Deliver d :: rest)))
  = map message_chunk (fragments (cs ++ [d]))
    ++ [message_complete (PyStr.join (fragments (cs ++ [d])))].
Proof.
  intros Hcs Hd. rewrite run_signals by reflexivity.
  destruct (stream_loop_chunks cs (init m msgs api cfg)
              (Deliver d :: rest) eq_refl Hcs) as (w' & Hw' & Hfull & Hloop).
  rewrite Hloop. cbn [fst stream_loop]. rewrite Hw', Hd.
  rewrite fragments_app, map_app, join_app, <- app_assoc.
  f_equal. simpl in Hfull.
  rewrite (fragments_cons d []). change (fragments []) with (@nil string).
  destruct (PyStr.truthy (get_content d)) eqn:E;
    cbn [fst map app PyStr.join fold_right full_response add_response];
    rewrite Hfull, ?append_empty_r; reflexivity.
Qed.

Lemma run_stream_done_witness :
  signals (fst (run (init "llama3" [] example_api example_config)
    (map Deliver [ {| chunk_content := Some "Hel"; chunk_done := None |};
                   {| chunk_content := None; chunk_done := Some false |} ]
     ++ Deliver {| chunk_content := Some "lo"; chunk_done := Some true |}
     :: [])))
  = [message_chunk "Hel"; message_chunk "lo"; message_complete "Hello"].
Proof.
  refine (run_stream_done "llama3" [] example_api example_config
            [ {| chunk_content := Some "Hel"; chunk_done := None |};
              {| chunk_content := None; chunk_done := Some false |} ]
            {| chunk_content := Some "lo"; chunk_done := Some true |} [] _ _);
    [repeat constructor | reflexivity].
Defined.

End WorkerFacts.

(* ================================================================== *)
(** * Properties of [send_message] *)

Section WindowFacts.

Import OllamaWorker.

(** Nobody but a cancel request sets the flag of a worker. *)
Lemma stream_loop_flag (response : list (stream_event Chunk)) :
  forall w : t,
    is_cancelled w = false -> no_cancel response ->
    is_cancelled (snd (stream_loop w response)) = false.
Proof.
  unfold no_cancel.
  induction response as [|e rest IH]; intros w Hw Hnc; simpl; [exact Hw|].
  destruct e as [chunk|msg|].
  - rewrite Hw.
    assert (Hrest : ~ In CancelRequest rest) by (intros H; apply Hnc; now right).
    destruct (PyStr.truthy (get_content chunk)), (get_done chunk); simpl; auto.
    + specialize (IH (add_response w (get_content chunk)) Hw Hrest).
      now destruct (stream_loop (add_response w (get_content chunk)) rest).
    + specialize (IH w Hw Hrest). now destruct (stream_loop w rest).
  - exact Hw.
  - exfalso. apply Hnc. now left.
Qed.

(** A send leaves the flag of the prior worker as it was: the worker is
    waited for and not asked to stop. *)
Lemma send_message_keeps_flag (app : MainWindow.t) (th : MainWindow.thread)
    (now : Z) (response : list (stream_event Chunk)) :
  MainWindow.ollama_worker app = Some th ->
  is_cancelled (MainWindow.worker th) = false ->
  no_cancel (MainWindow.pending th) ->
  match MainWindow.prior_thread (MainWindow.send_message app now response) with
  | Some th' => is_cancelled (MainWindow.worker th') = false
  | None => True
  end.
Proof.
  intros Hth Hw Hnc. unfold MainWindow.send_message.
  destruct (negb (PyStr.truthy (PyStr.strip (MainWindow.input_text app))));
    simpl; [exact I|].
  destruct (negb (PyStr.truthy (MainWindow.current_model app)));
    simpl; [exact I|].
  rewrite Hth. cbn [option_map].
  unfold MainWindow.thread_wait, MainWindow.thread_quit, MainWindow.sharing.
  cbn [MainWindow.worker MainWindow.pending].
  set (w := MainWindow.set_messages (MainWindow.worker th) _).
  pose proof (stream_loop_flag (MainWindow.pending th) w Hw Hnc) as H.
  destruct (stream_loop w (MainWindow.pending th)) as [out w']. exact H.
Qed.

(** C4 at a send made while the prior request is streaming: the prior
    worker, which has received the fragment Hel and still has the
    fragment lo and the [done] chunk to come, is waited for with its
    cancel flag never set; it streams to its end and emits its completion
    event before the new worker is started. *)
Theorem send_message_prior_not_cancelled :
  let prior :=
    {| MainWindow.worker :=
         add_response (init "llama3" [] example_api example_config) "Hel";
       MainWindow.pending :=
         [ Deliver {| chunk_content := Some "lo"; chunk_done := Some false |};
           Deliver {| chunk_content := None; chunk_done := Some true |} ] |} in
  let app :=
    {| MainWindow.input_text := "next";
       MainWindow.current_model := "llama3";
       MainWindow.message_history := [];
       MainWindow.ollama_worker := Some prior;
       MainWindow.api_config := example_api;
       MainWindow.model_config := example_config |} in
  let after := MainWindow.send_message app 0 [] in
  MainWindow.prior_signals after
  = [message_chunk "lo"; message_complete "Hello"] /\
  option_map (fun th => is_cancelled (MainWindow.worker th))
             (MainWindow.prior_thread after)
  = Some false.
Proof. split; reflexivity. Qed.

End WindowFacts.

(* ================================================================== *)
(** * Properties of the pull operation *)

Section PullFacts.

Import ModelManager.

Lemma last_cons (v : Z) (l : list Z) (d : Z) : last (v :: l) d = last l v.
Proof.
  revert v d. induction l as [|x l IH]; intros v d; [reflexivity|].
  change (last (v :: x :: l) d) with (last (x :: l) d).
  now rewrite (IH x d), (IH x v).
Qed.

Lemma last_value_cons (start : Z) (field : Progress -> option Z)
    (p : Progress) (seen : list Progress) :
  last_value start field (p :: seen)
  = last_value (update (field p) start) field seen.
Proof.
  unfold last_value, received, update. simpl.
  destruct (field p) as [v|]; simpl app; [apply last_cons | reflexivity].
Qed.

Lemma progress_event_cons (total0 completed0 : Z) (p q : Progress)
    (seen : list Progress) :
  progress_event total0 completed0 (p :: seen) q
  = progress_event (update (total p) total0) (update (completed p) completed0)
      seen q.
Proof. unfold progress_event. now rewrite !last_value_cons. Qed.

Lemma progress_events_cons (total0 completed0 : Z) (p : Progress)
    (ps : list Progress) :
  progress_events total0 completed0 (p :: ps)
  = progress_event total0 completed0 [p] p
    :: progress_events (update (total p) total0)
         (update (completed p) completed0) ps.
Proof.
  unfold progress_events. simpl List.length. simpl seq. simpl map.
  f_equal. rewrite <- seq_shift, map_map.
  apply map_ext. intros i. simpl. apply progress_event_cons.
Qed.

(** The loop over a run of updates, seen from a manager that is not
    cancelled: the events of the updates one by one, then whatever the
    rest of the stream brings. *)
Lemma pull_loop_updates (ps : list Progress) :
  forall (m : t) (name : string) (total0 completed0 : Z)
         (tail : list (stream_event Progress)),
    is_cancelled m = false ->
    fst (pull_loop m name total0 completed0 (map Deliver ps ++ tail))
    = settle m (progress_events total0 completed0 ps)
        (fst (pull_loop m name (last_value total0 total ps)
                (last_value completed0 completed ps) tail)).
Proof.
  induction ps as [|p ps IH]; intros m name total0 completed0 tail Hm.
  - reflexivity.
  - rewrite progress_events_cons, !last_value_cons.
    specialize (IH m name (update (total p) total0)
                  (update (completed p) completed0) tail Hm).
    simpl map. simpl app. cbn [pull_loop]. rewrite Hm.
    unfold progress_event. rewrite !last_value_cons.
    change (last_value ?d ?f []) with d.
    destruct (0 <? update (total p) total0).
    + destruct (percentage _ _) as [pct|msg].
      * destruct (pull_loop m name _ _ (map Deliver ps ++ tail)) as [out m'].
        simpl in *. now rewrite IH.
      * simpl. unfold on_exception. now rewrite Hm.
    + destruct (pull_loop m name _ _ (map Deliver ps ++ tail)) as [out m'].
      simpl in *. now rewrite IH.
Qed.

Lemma signals_emit_pull (out : list Signal) : signals (map Emit out) = out.
Proof. induction out as [|s out IH]; simpl; [reflexivity | now rewrite IH]. Qed.

(** The signals of a pull that has a model name. *)
Lemma pull_model_signals (m : t) (name : string)
    (stream : list (stream_event Progress)) :
  PyStr.truthy name = true ->
  signals (fst (_pull_model (pull_model m name) stream))
  = starting name :: fst (pull_loop (pull_model m name) name 0 0 stream).
Proof.
  intros Hname. unfold _pull_model. cbn [model_name pull_model].
  rewrite Hname. cbn [negb].
  destruct (pull_loop (pull_model m name) name 0 0 stream) as [out m'].
  simpl. now rewrite signals_emit_pull.
Qed.

(** The success event is emitted only by a manager that is not cancelled,
    at the end of a stream that holds no cancel request. *)
Lemma pull_loop_success (stream : list (stream_event Progress)) :
  forall (m : t) (name : string) (total0 completed0 : Z) (n : string),
    In (model_pulled n) (fst (pull_loop m name total0 completed0 stream)) ->
    is_cancelled m = false /\ no_cancel stream.
Proof.
  unfold no_cancel.
  induction stream as [|e rest IH]; intros m name total0 completed0 n; simpl.
  - destruct (is_cancelled m); simpl; [tauto | intros _; tauto].
  - destruct e as [p|msg|].
    + destruct (is_cancelled m) eqn:Hm; simpl.
      * intros [H|[]]. discriminate.
      * set (t1 := update (total p) total0).
        set (c1 := update (completed p) completed0).
        assert (Hnext : In (model_pulled n) (fst (pull_loop m name t1 c1 rest))
                        -> false = false /\
                           ~ (Deliver p = CancelRequest \/ In CancelRequest rest)).
        { intros H. destruct (IH _ _ _ _ _ H) as [_ Hr].
          split; [reflexivity|]. intros [Hb|Hb]; [discriminate | tauto]. }
        destruct (0 <? t1).
        -- destruct (percentage c1 t1) as [pct|msg].
           ++ destruct (pull_loop m name t1 c1 rest) as [out m']. simpl in *.
              intros [H|H]; [discriminate | auto].
           ++ unfold on_exception. rewrite Hm. simpl. intros [H|[]]. discriminate.
        -- destruct (pull_loop m name t1 c1 rest) as [out m']. simpl in *.
           intros [H|H]; [discriminate | auto].
    + unfold on_exception. destruct (is_cancelled m); simpl; [tauto|].
      intros [H|[]]. discriminate.
    + intros H. destruct (IH _ _ _ _ _ H) as [Hc _]. discriminate.
Qed.

(** C10: a pull run with no model name, missing or empty, emits the one
    error event [No model name provided] and nothing else: no progress
    update, no success event, and no request to the server. *)
Theorem pull_without_model_name (m : t)
    (stream : list (stream_event Progress)) :
  model_name m = None \/ model_name m = Some EmptyString ->
  fst (_pull_model m stream) = [Emit (error_occurred "No model name provided")]
  /\ existsb is_pull (fst (_pull_model m stream)) = false
  /\ snd (_pull_model m stream) = m.
Proof.
  intros [H|H]; unfold _pull_model; rewrite H; simpl; auto.
Qed.

Lemma pull_without_model_name_witness :
  fst (_pull_model (init example_api)
         [Deliver {| total := Some 10; completed := Some 5;
                     status := Some "pulling" |}])
  = [Emit (error_occurred "No model name provided")].
Proof.
  refine (proj1 (pull_without_model_name (init example_api) _ _)).
  left. reflexivity.
Defined.

(** C7, as amended: a pull that is neither cancelled nor broken emits,
    after the starting event, one progress event for each update, in the
    order of the updates, and then the success event.  The event of an
    update is decided by the most recent total and the most recent
    completed count received so far, each 0 as long as none has come:
    when the total is positive it carries
    [int((completed / total) * 100)], computed on doubles and truncated,
    with a text built from the status of the update; otherwise it carries
    -1.  An update whose percentage cannot be computed ends the pull with
    the error event. *)
Theorem pull_progress_in_order (m : t) (name : string) (ps : list Progress) :
  PyStr.truthy name = true ->
  signals (fst (_pull_model (pull_model m name) (map Deliver ps)))
  = starting name
    :: settle (pull_model m name) (progress_events 0 0 ps) [model_pulled name].
Proof.
  intros Hname. rewrite pull_model_signals by exact Hname. f_equal.
  pose proof (pull_loop_updates ps (pull_model m name) name 0 0 []
                eq_refl) as H.
  rewrite app_nil_r in H. exact H.
Qed.

Lemma pull_progress_in_order_witness :
  signals (fst (_pull_model (pull_model (init example_api) "llama3")
    (map Deliver
       [ {| total := None; completed := None; status := Some "pulling manifest" |};
         {| total := Some 200; completed := Some 50; status := Some "downloading" |};
         {| total := None; completed := Some 200; status := None |} ])))
  = [ pull_progress (-1) "Starting download of llama3 to remote server...";
      pull_progress (-1) "Remote download: pulling manifest";
      pull_progress 25 "Downloading to remote server: downloading (25%)";
      pull_progress 100 "Downloading to remote server: Downloading... (100%)";
      model_pulled "llama3" ].
Proof.
  refine (eq_trans (pull_progress_in_order (init example_api) "llama3" _ _) _);
    [reflexivity | vm_compute; reflexivity].
Defined.

(** The claim C7 fails on two updates.  The first carries a total and no
    completed count: the event is the percentage 0 and not -1.  The
    second completes 29 of 100: the event carries 28, where the floor of
    29 / 100 * 100 is 29. *)
Lemma pull_progress_not_floor :
  signals (fst (_pull_model (pull_model (init example_api) "llama3")
    [ Deliver {| total := Some 100; completed := None;
                 status := Some "pulling" |};
      Deliver {| total := None; completed := Some 29;
                 status := Some "pulling" |} ]))
  = [ pull_progress (-1) "Starting download of llama3 to remote server...";
      pull_progress 0 "Downloading to remote server: pulling (0%)";
      pull_progress 28 "Downloading to remote server: pulling (28%)";
      model_pulled "llama3" ]
  /\ 29 * 100 / 100 = 29.
Proof. split; vm_compute; reflexivity. Qed.

(** The loop of a manager that has been asked to stop. *)
Lemma pull_loop_cancelled (rest : list (stream_event Progress)) :
  forall (m : t) (name : string) (total0 completed0 : Z),
    is_cancelled m = true ->
    fst (pull_loop m name total0 completed0 rest) = after_cancel rest.
Proof.
  induction rest as [|e rest IH]; intros m name total0 completed0 Hm; simpl.
  - now rewrite Hm.
  - destruct e as [p|msg|].
    + now rewrite Hm.
    + unfold on_exception. now rewrite Hm.
    + now apply IH.
Qed.

(** C8, as amended: when cancellation is requested during a pull and a
    further update arrives afterwards, the pull emits the update
    [Download cancelled] as its last event and stops; when the stream
    ends or breaks right after the request, it emits nothing more.  No
    stream that holds a cancel request leads to the success event: that
    event is emitted only for a stream without one. *)
Theorem pull_cancelled (m : t) (name : string) (ps : list Progress)
    (rest : list (stream_event Progress)) :
  PyStr.truthy name = true ->
  let pull stream := signals (fst (_pull_model (pull_model m name) stream)) in
  pull (map Deliver ps ++ CancelRequest :: rest)
  = starting name
    :: settle (pull_model m name) (progress_events 0 0 ps) (after_cancel rest)
  /\ (forall p rest', after_cancel (Deliver p :: rest') = [cancelled_update])
  /\ after_cancel [] = []
  /\ forall stream n, In (model_pulled n) (pull stream) -> no_cancel stream.
Proof.
  intros Hname pull. unfold pull. repeat split.
  - rewrite pull_model_signals by exact Hname. f_equal.
    rewrite pull_loop_updates by reflexivity. f_equal.
    cbn [pull_loop]. now apply pull_loop_cancelled.
  - intros stream n. rewrite pull_model_signals by exact Hname.
    intros [H|H]; [discriminate|].
    exact (proj2 (pull_loop_success _ _ _ _ _ _ H)).
Qed.

Lemma pull_cancelled_witness :
  signals (fst (_pull_model (pull_model (init example_api) "llama3")
    (map Deliver [ {| total := Some 200; completed := Some 50;
                      status := Some "downloading" |} ]
     ++ CancelRequest
     :: [ Deliver {| total := None; completed := Some 100;
                     status := None |} ])))
  = [ pull_progress (-1) "Starting download of llama3 to remote server...";
      pull_progress 25 "Downloading to remote server: downloading (25%)";
      pull_progress 0 "Download cancelled" ].
Proof.
  refine (eq_trans
            (proj1 (pull_cancelled (init example_api) "llama3" _ _ _)) _);
    [reflexivity | vm_compute; reflexivity].
Defined.

(** The claim C8 fails when the request comes after the last update and
    before the end of the stream: the pull then ends with neither the
    cancellation update nor the success event. *)
Lemma pull_cancel_after_last_update :
  let stream :=
    [ Deliver {| total := Some 200; completed := Some 200;
                 status := Some "success" |};
      CancelRequest ] in
  let out := signals (fst (_pull_model
                             (pull_model (init example_api) "llama3") stream)) in
  In CancelRequest stream /\
  out = [ pull_progress (-1) "Starting download of llama3 to remote server...";
          pull_progress 100 "Downloading to remote server: success (100%)" ] /\
  ~ In cancelled_update out.
Proof.
  repeat split.
  - right. now left.
  - vm_compute. intros [H|[H|[]]]; discriminate.
Qed.

End PullFacts.

(* ================================================================== *)
(** * Properties of the size format *)

Section FloatFacts.

Import SpecFloat.

(** The number of binary digits of a positive number. *)
Lemma digits2_pos_bounds (p : positive) :
  2 ^ (Z.pos (digits2_pos p) - 1) <= Z.pos p < 2 ^ Z.pos (digits2_pos p).
Proof.
  assert (step : forall d x y : Z, 0 < d -> 2 ^ (d - 1) <= x < 2 ^ d ->
            0 <= y <= 1 ->
            2 ^ (Z.succ d - 1) <= 2 * x + y < 2 ^ Z.succ d).
  { intros d x y Hd Hx Hy.
    replace (Z.succ d - 1) with (Z.succ (d - 1)) by lia.
    rewrite !Z.pow_succ_r by lia. lia. }
  induction p as [p IH|p IH|]; cbn [digits2_pos].
  - rewrite Pos2Z.inj_succ. change (Z.pos p~1) with (2 * Z.pos p + 1).
    apply step; lia.
  - rewrite Pos2Z.inj_succ. replace (Z.pos p~0) with (2 * Z.pos p + 0) by lia.
    apply step; lia.
  - simpl. lia.
Qed.

Lemma iter_xO_digits (p s : positive) :
  digits2_pos (Pos.iter xO p s) = (digits2_pos p + s)%positive.
Proof.
  induction s as [|s IH] using Pos.peano_ind.
  - simpl. lia.
  - rewrite Pos.iter_succ. cbn [digits2_pos]. rewrite IH. lia.
Qed.

Lemma iter_xO_value (p s : positive) :
  Z.pos (Pos.iter xO p s) = Z.pos p * 2 ^ Z.pos s.
Proof.
  induction s as [|s IH] using Pos.peano_ind.
  - simpl. lia.
  - rewrite Pos.iter_succ, Pos2Z.inj_succ, Z.pow_succ_r by lia.
    change (Z.pos (Pos.iter xO p s)~0) with (2 * Z.pos (Pos.iter xO p s)).
    rewrite IH. lia.
Qed.

(** A mantissa of 53 digits with an exponent in range is a double as it
    stands: rounding leaves it alone. *)
Lemma binary_round_aux_normal (s : bool) (m : positive) (e : Z) :
  Z.pos (digits2_pos m) = 53 -> -1074 <= e <= 971 ->
  binary_round_aux PyFloat.prec PyFloat.emax s (Z.pos m) e loc_Exact
  = S754_finite s m e.
Proof.
  intros Hd He.
  unfold binary_round_aux, shr_fexp, fexp, emin, PyFloat.prec, PyFloat.emax.
  cbn [Zdigits2 shr_record_of_loc]. rewrite Hd.
  replace (Z.max (53 + e - 53) (3 - 1024 - 53) - e) with 0 by lia.
  cbn [shr shr_m loc_of_shr_record round_nearest_even Zdigits2].
  rewrite Hd.
  replace (Z.max (53 + e - 53) (3 - 1024 - 53) - e) with 0 by lia.
  cbn [shr shr_m shr_record_of_loc].
  destruct (Z.leb_spec e (1024 - 53)); [reflexivity | lia].
Qed.

(** [float(n)] is exact below 2^53: the mantissa is [n] shifted to 53
    digits. *)
Lemma of_Z_small (n : Z) :
  0 < n < 2 ^ 53 ->
  exists (m : positive) (e : Z),
    PyFloat.of_Z n = S754_finite false m e /\
    Z.pos (digits2_pos m) = 53 /\ -52 <= e <= 0 /\
    Z.pos m = n * 2 ^ (- e).
Proof.
  intros Hn. destruct n as [|p|p]; try lia.
  pose proof (digits2_pos_bounds p) as Hp.
  assert (Hd : Z.pos (digits2_pos p) <= 53).
  { destruct (Z.le_gt_cases (Z.pos (digits2_pos p)) 53) as [H|H]; [exact H|].
    exfalso. assert (2 ^ 53 <= 2 ^ (Z.pos (digits2_pos p) - 1))
      by (apply Z.pow_le_mono_r; lia). lia. }
  unfold PyFloat.of_Z, binary_normalize, binary_round, shl_align.
  unfold fexp, emin, PyFloat.prec, PyFloat.emax.
  replace (Z.max (Z.pos (digits2_pos p) + 0 - 53) (3 - 1024 - 53) - 0)
    with (Z.pos (digits2_pos p) - 53) by lia.
  replace (Z.max (Z.pos (digits2_pos p) + 0 - 53) (3 - 1024 - 53))
    with (Z.pos (digits2_pos p) - 53) by lia.
  destruct (Z.pos (digits2_pos p) - 53) as [|s|s] eqn:Es; try lia.
  - exists p, 0. split; [|split; [lia | split; [lia | simpl; lia]]].
    apply (binary_round_aux_normal false p 0); lia.
  - exists (Pos.iter xO p s), (Z.neg s).
    assert (Hds : Z.pos (digits2_pos (Pos.iter xO p s)) = 53)
      by (rewrite iter_xO_digits; lia).
    split; [|split; [exact Hds | split; [lia | apply iter_xO_value]]].
    apply (binary_round_aux_normal false (Pos.iter xO p s) (Z.neg s)); lia.
Qed.

(** A normal double is below 1024.0 exactly when its exponent is below
    that of 1024.0. *)
Lemma ltb_normal (m : positive) (e : Z) :
  Z.pos (digits2_pos m) = 53 ->
  PyFloat.ltb (S754_finite false m e) PyFloat.f1024 = (e <? -42).
Proof.
  intros Hd. unfold PyFloat.ltb, SFltb, PyFloat.f1024, SFcompare.
  destruct (Z.compare_spec e (-42)) as [H|H|H].
  - subst e.
    pose proof (digits2_pos_bounds m) as Hm. rewrite Hd in Hm.
    assert (Hlo : (4503599627370496 <= m)%positive).
    { apply Pos2Z.pos_le_pos. apply (proj1 Hm). }
    clear Hm. rewrite Pos.compare_cont_spec.
    destruct (Pos.compare_spec m 4503599627370496) as [E|E|E];
      try reflexivity.
    exfalso. exact (proj1 (Pos.le_nlt _ _) Hlo E).
  - symmetry. apply Z.ltb_lt. exact H.
  - symmetry. apply Z.ltb_ge. apply Z.lt_le_incl. exact H.
Qed.

Lemma div_eucl_shift (m : positive) :
  Z.div_eucl (Z.shiftl (Z.pos m) 53) 4503599627370496 = (Z.pos m~0, 0).
Proof.
  rewrite Z.shiftl_mul_pow2 by lia.
  replace (2 ^ 53) with (2 * 4503599627370496) by reflexivity.
  pose proof (Z_div_mod (Z.pos m * (2 * 4503599627370496)) 4503599627370496
                eq_refl) as H.
  destruct (Z.div_eucl (Z.pos m * (2 * 4503599627370496)) 4503599627370496)
    as [q r].
  destruct H as [H1 H2]. f_equal; lia.
Qed.

(** Dividing a normal double by 1024.0 lowers its exponent by 10. *)
Lemma div_normal (m : positive) (e : Z) :
  Z.pos (digits2_pos m) = 53 -> -1063 <= e <= 981 ->
  PyFloat.div (S754_finite false m e) PyFloat.f1024
  = S754_finite false m (e - 10).
Proof.
  intros Hd He.
  unfold PyFloat.div, PyFloat.f1024, SFdiv, SFdiv_core_binary.
  unfold fexp, emin, PyFloat.prec, PyFloat.emax.
  cbn [Zdigits2 xorb]. rewrite Hd.
  replace (Z.pos (digits2_pos 4503599627370496)) with 53 by reflexivity.
  replace (Z.min (Z.max (53 + e - (53 + -42) - 53) (3 - 1024 - 53)) (e - -42))
    with (e - 11) by lia.
  replace (e - -42 - (e - 11)) with 53 by lia.
  rewrite div_eucl_shift.
  replace (new_location 4503599627370496 0) with loc_Exact by reflexivity.
  unfold binary_round_aux at 1, shr_fexp at 1, fexp, emin.
  cbn [Zdigits2 digits2_pos shr_record_of_loc].
  rewrite Pos2Z.inj_succ, Hd.
  replace (Z.max (Z.succ 53 + (e - 11) - 53) (3 - 1024 - 53) - (e - 11))
    with 1 by lia.
  cbn [shr iter_pos shr_1 shr_m loc_of_shr_record orb round_nearest_even].
  replace (e - 11 + 1) with (e - 10) by lia.
  unfold shr_fexp, fexp, emin. cbn [Zdigits2 shr_record_of_loc]. rewrite Hd.
  replace (Z.max (53 + (e - 10) - 53) (3 - 1024 - 53) - (e - 10))
    with 0 by lia.
  cbn [shr shr_m].
  destruct (Z.leb_spec (e - 10) (1024 - 53)); [reflexivity | lia].
Qed.

(** Scaling numerator and denominator does not move the rounded
    quotient. *)
Lemma round_half_even_scale (c p q : Z) :
  0 < c -> 0 < q ->
  PyFloat.round_half_even (c * p) (c * q) = PyFloat.round_half_even p q.
Proof.
  intros Hc Hq. unfold PyFloat.round_half_even.
  rewrite Z.div_mul_cancel_l by lia.
  rewrite Z.mul_mod_distr_l by lia.
  replace (2 * (c * (p mod q))) with (c * (2 * (p mod q))) by lia.
  rewrite <- Zmult_compare_compat_l by lia. reflexivity.
Qed.

Lemma round_half_even_one (p : Z) : PyFloat.round_half_even p 1 = p.
Proof.
  unfold PyFloat.round_half_even. rewrite Z.mod_1_r, Z.div_1_r. reflexivity.
Qed.

(** The tenths printed for a double of mantissa [m] and exponent
    [e - 10 * k], when the mantissa is [n] shifted by [- e] places, are
    those of [n / 1024 ^ k]. *)
Lemma tenths_of_quotient (m : positive) (e n k : Z) :
  e <= 0 -> 0 <= k -> Z.pos m = n * 2 ^ (- e) ->
  (if 0 <=? e - 10 * k
   then 10 * Z.pos m * 2 ^ (e - 10 * k)
   else PyFloat.round_half_even (10 * Z.pos m) (2 ^ (- (e - 10 * k))))
  = PyFloat.round_half_even (10 * n) (1024 ^ k).
Proof.
  intros He Hk Hm.
  assert (H1024 : 1024 ^ k = 2 ^ (10 * k)).
  { change 1024 with (2 ^ 10). now rewrite <- Z.pow_mul_r by lia. }
  destruct (Z.leb_spec 0 (e - 10 * k)) as [H|H].
  - assert (e = 0) by lia. assert (k = 0) by lia. subst e k.
    change (- 0) with 0 in Hm. change (0 - 10 * 0) with 0.
    rewrite Z.pow_0_r in *. rewrite round_half_even_one. lia.
  - rewrite Hm, H1024.
    replace (- (e - 10 * k)) with (- e + 10 * k) by lia.
    rewrite Z.pow_add_r by lia.
    replace (10 * (n * 2 ^ (- e))) with (2 ^ (- e) * (10 * n)) by lia.
    apply round_half_even_scale; apply Z.pow_pos_nonneg; lia.
Qed.

(** The exponent of a normal double follows the magnitude of the integer
    it holds. *)
Lemma exponent_above (m : positive) (e n a : Z) :
  Z.pos (digits2_pos m) = 53 -> e <= 0 -> Z.pos m = n * 2 ^ (- e) ->
  0 <= a -> 2 ^ a <= n -> a - 53 < e.
Proof.
  intros Hd He Hm Ha Hn.
  pose proof (digits2_pos_bounds m) as Hb. rewrite Hd in Hb.
  assert (H : 2 ^ (a - e) < 2 ^ 53).
  { replace (a - e) with (a + - e) by lia. rewrite Z.pow_add_r by lia.
    apply Z.le_lt_trans with (Z.pos m); [|apply Hb].
    rewrite Hm. apply Z.mul_le_mono_nonneg_r; [|exact Hn].
    apply Z.pow_nonneg. lia. }
  apply Z.pow_lt_mono_r_iff in H; lia.
Qed.

Lemma exponent_below (m : positive) (e n b : Z) :
  Z.pos (digits2_pos m) = 53 -> e <= 0 -> Z.pos m = n * 2 ^ (- e) ->
  0 <= b -> n < 2 ^ b -> e < b - 52.
Proof.
  intros Hd He Hm Hb0 Hn.
  pose proof (digits2_pos_bounds m) as Hb. rewrite Hd in Hb.
  assert (H : 2 ^ (53 - 1) < 2 ^ (b - e)).
  { replace (b - e) with (b + - e) by lia. rewrite Z.pow_add_r by lia.
    apply Z.le_lt_trans with (Z.pos m); [apply Hb|].
    rewrite Hm. apply Z.mul_lt_mono_pos_r; [|exact Hn].
    apply Z.pow_pos_nonneg; lia. }
  apply Z.pow_lt_mono_r_iff in H; lia.
Qed.

End FloatFacts.

Section SizeFacts.

Import SpecFloat ModelManager.

(** The loop of [_format_size] on a normal double: it leaves at the
    first unit at which the exponent, lowered by 10 for each unit passed,
    is below that of 1024.0, and at PB when there is none. *)
Lemma format_loop_normal (us : list string) :
  forall (m : positive) (e : Z) (j : nat),
    Z.pos (digits2_pos m) = 53 ->
    -1063 <= e - 10 * Z.of_nat (List.length us) -> e <= 981 ->
    (j <= List.length us)%nat ->
    (j = 0%nat \/ -42 <= e - 10 * (Z.of_nat j - 1)) ->
    (j = List.length us \/ e - 10 * Z.of_nat j < -42) ->
    format_loop us (S754_finite false m e)
    = (PyFloat.format_1f (S754_finite false m (e - 10 * Z.of_nat j))
       ++ " " ++ nth j (us ++ ["PB"]) EmptyString)%string.
Proof.
  induction us as [|u us IH]; intros m e j Hd Hmin Hmax Hj Hlo Hhi.
  - assert (j = 0%nat) by (simpl in Hj; lia). subst j.
    cbn [format_loop nth app]. now replace (e - 10 * Z.of_nat 0) with e by lia.
  - cbn [format_loop List.length] in *. rewrite ltb_normal by exact Hd.
    destruct j as [|j].
    + replace (e - 10 * Z.of_nat 0) with e in * by lia.
      destruct Hhi as [Hhi|Hhi]; [discriminate|].
      now rewrite (proj2 (Z.ltb_lt _ _) Hhi).
    + destruct Hlo as [Hlo|Hlo]; [discriminate|].
      rewrite (proj2 (Z.ltb_ge _ _)) by lia.
      rewrite div_normal by (exact Hd || lia).
      rewrite (IH m (e - 10) j Hd) by lia.
      cbn [nth app]. do 3 f_equal. lia.
Qed.

(** C1, as amended: [_format_size] returns [Unknown] for 0.  For a
    byte count [0 < n < 2^53] it returns the quotient [n / 1024^k] with
    one decimal place, rounded half to even, for every unit including B,
    followed by a space and the unit, where the unit is the first of B,
    KB, MB, GB, TB with [n / 1024^k < 1024], and PB when there is none. *)
Theorem format_size_spec (n : Z) (k : nat) :
  0 <= n < 2 ^ 53 -> (k <= 5)%nat ->
  (k = 0%nat \/ 1024 ^ Z.of_nat k <= n) ->
  (k = 5%nat \/ n < 1024 ^ (Z.of_nat k + 1)) ->
  _format_size n
  = Ok (if n =? 0 then "Unknown"
        else (PyFloat.tenths
                (PyFloat.round_half_even (10 * n) (1024 ^ Z.of_nat k))
              ++ " " ++ nth k (units ++ ["PB"]) EmptyString)%string).
Proof.
  intros Hn Hk Hlo Hhi. unfold _format_size.
  destruct (Z.eqb_spec n 0) as [H0|H0]; [reflexivity|].
  destruct (of_Z_small n) as (m & e & Hof & Hd & He & Hm); [lia|].
  unfold PyFloat.of_int. rewrite Hof. f_equal.
  assert (Hpow : forall j : Z, 0 <= j -> 1024 ^ j = 2 ^ (10 * j)).
  { intros j Hj. change 1024 with (2 ^ 10). now rewrite <- Z.pow_mul_r by lia. }
  assert (Hlo' : 10 * Z.of_nat k - 53 < e).
  { destruct Hlo as [->|Hlo]; [simpl; lia|].
    rewrite Hpow in Hlo by lia.
    apply (exponent_above m e n (10 * Z.of_nat k)); auto; lia. }
  assert (Hhi' : k = 5%nat \/ e < 10 * Z.of_nat k - 42).
  { destruct Hhi as [->|Hhi]; [now left | right].
    rewrite Hpow in Hhi by lia.
    pose proof (exponent_below m e n (10 * (Z.of_nat k + 1)) Hd) as H.
    lia. }
  clear Hlo Hhi Hpow.
  rewrite (format_loop_normal units m e k Hd) by (simpl List.length; lia).
  f_equal. unfold PyFloat.format_1f. cbn [PyFloat.sign append]. f_equal.
  apply tenths_of_quotient; lia.
Qed.

Lemma format_size_spec_witness :
  _format_size 1536 = Ok "1.5 KB" /\
  _format_size 1073741824 = Ok "1.0 GB".
Proof.
  split.
  - refine (eq_trans (format_size_spec 1536 1 _ _ _ _) _);
      [lia | lia | right; lia | right; lia | reflexivity].
  - refine (eq_trans (format_size_spec 1073741824 3 _ _ _ _) _);
      [lia | lia | right; lia | right; lia | reflexivity].
Defined.

(** The claim C1 fails at 0, which is not formatted as a number of
    bytes, and at 512, which is printed with a decimal place.  Above 2^53
    the count is rounded to a double first: 9063494250083123 is printed
    as 8.1 PB, where its quotient by 1024^5 rounds to 8.0. *)
Lemma format_size_zero_and_bytes :
  _format_size 0 = Ok "Unknown" /\
  _format_size 512 = Ok "512.0 B" /\
  _format_size 9063494250083123 = Ok "8.1 PB" /\
  PyFloat.tenths
    (PyFloat.round_half_even (10 * 9063494250083123) (1024 ^ 5)) = "8.0".
Proof. repeat split; vm_compute; reflexivity. Qed.

End SizeFacts.

(* ================================================================== *)
(** * More on the model catalog filter *)

Section CatalogOrder.

Lemma leb_trans (x y z : string) :
  PyStr.le x y -> PyStr.le y z -> PyStr.le x z.
Proof.
  unfold PyStr.le, String.leb. intros Hxy Hyz.
  destruct (String.compare x y) eqn:Exy; try discriminate.
  - apply String.compare_eq_iff in Exy. now subst.
  - destruct (String.compare y z) eqn:Eyz; try discriminate.
    + apply String.compare_eq_iff in Eyz. subst. now rewrite Exy.
    + apply OrderedTypeEx.String_as_OT.cmp_lt in Exy, Eyz.
      pose proof (OrderedTypeEx.String_as_OT.lt_trans _ _ _ Exy Eyz) as H.
      apply OrderedTypeEx.String_as_OT.cmp_lt in H.
      unfold OrderedTypeEx.String_as_OT.cmp in H. now rewrite H.
Qed.

Lemma sorted_strongly (l : list string) :
  StronglySorted PyStr.le (PyStr.sorted l).
Proof.
  apply Sorted_StronglySorted; [|apply sorted_ascending].
  intros x y z. apply leb_trans.
Qed.

Lemma insert_perm (x : string) (l : list string) :
  Permutation (x :: l) (PyStr.insert x l).
Proof.
  induction l as [|y r IH]; simpl; [reflexivity|].
  destruct (String.leb x y); [reflexivity|].
  rewrite perm_swap. now apply perm_skip.
Qed.

Lemma sorted_perm (l : list string) : Permutation l (PyStr.sorted l).
Proof.
  induction l as [|x r IH]; simpl; [reflexivity|].
  rewrite <- insert_perm. now apply perm_skip.
Qed.

Lemma filter_perm {A} (p : A -> bool) (l l' : list A) :
  Permutation l l' -> Permutation (filter p l) (filter p l').
Proof.
  induction 1 as [|x l l' H IH|x y l|l l' l'' H1 IH1 H2 IH2]; simpl.
  - reflexivity.
  - destruct (p x); [now apply perm_skip | exact IH].
  - destruct (p x), (p y); try reflexivity. apply perm_swap.
  - now transitivity (filter p l').
Qed.

(** Two ascending lists with the same elements are the same list. *)
Lemma ascending_unique (l l' : list string) :
  StronglySorted PyStr.le l -> StronglySorted PyStr.le l' ->
  Permutation l l' -> l = l'.
Proof.
  revert l'. induction l as [|x r IH]; intros l' Hl Hl' Hp.
  - now apply Permutation_nil in Hp.
  - destruct l' as [|y r'].
    + symmetry in Hp. now apply Permutation_nil in Hp.
    + apply StronglySorted_inv in Hl. destruct Hl as [Hr Hx].
      apply StronglySorted_inv in Hl'. destruct Hl' as [Hr' Hy].
      assert (Hxy : x = y).
      { assert (Hin : In x (y :: r'))
          by (apply (Permutation_in _ Hp); now left).
        assert (Hin' : In y (x :: r))
          by (apply (Permutation_in _ (Permutation_sym Hp)); now left).
        destruct Hin as [E|Hin]; [now symmetry|].
        destruct Hin' as [E|Hin']; [exact E|].
        rewrite Forall_forall in Hx, Hy.
        apply String.leb_antisym; [apply Hx, Hin' | apply Hy, Hin]. }
      subst y. f_equal. apply IH; auto.
      now apply Permutation_cons_inv in Hp.
Qed.

(** X1: the list returned by the filter is in ascending order: each of
    its names is below or equal to every name that follows it. *)
Theorem filter_valid_models_ascending (xs : list string) :
  StronglySorted PyStr.le (Catalog.filter_valid_models xs).
Proof. apply sorted_strongly. Qed.

(** X2: the filter returns the accepted names of its input and nothing
    else, each as often as it occurs in the input: duplicates are kept. *)
Theorem filter_valid_models_permutation (xs : list string) :
  Permutation (filter Catalog.accepts xs) (Catalog.filter_valid_models xs).
Proof.
  unfold Catalog.filter_valid_models. rewrite filter_loop_filter. simpl.
  apply sorted_perm.
Qed.

(** X3: the result does not depend on the order in which the server
    lists the models. *)
Theorem filter_valid_models_order_free (xs ys : list string) :
  Permutation xs ys ->
  Catalog.filter_valid_models xs = Catalog.filter_valid_models ys.
Proof.
  intros Hp. unfold Catalog.filter_valid_models.
  rewrite !filter_loop_filter. simpl.
  apply ascending_unique; try apply sorted_strongly.
  rewrite <- !sorted_perm. now apply filter_perm.
Qed.

Lemma filter_valid_models_order_free_witness :
  Catalog.filter_valid_models ["mistral:7b"; "llama3:latest"]
  = Catalog.filter_valid_models ["llama3:latest"; "mistral:7b"].
Proof.
  apply filter_valid_models_order_free. apply perm_swap.
Defined.

End CatalogOrder.

Section CatalogCase.

Lemma lower_ascii_colon (c : ascii) :
  Ascii.eqb (PyStr.lower_ascii c) ":" = Ascii.eqb c ":".
Proof. destruct c as [[] [] [] [] [] [] [] []]; reflexivity. Qed.

(** Splitting at the first colon commutes with lowering the case. *)
Lemma split_once_lower (s : string) :
  PyStr.split_once ":" (PyStr.lower s)
  = match PyStr.split_once ":" s with
    | Some (a, b) => Some (PyStr.lower a, PyStr.lower b)
    | None => None
    end.
Proof.
  induction s as [|c r IH]; simpl; [reflexivity|].
  rewrite lower_ascii_colon. destruct (Ascii.eqb c ":"); [reflexivity|].
  rewrite IH. now destruct (PyStr.split_once ":" r) as [[a b]|].
Qed.

(** The tag check of the filter, as a function of the lowered name. *)
Lemma tag_check_lower (s : string) :
  match PyStr.split_once ":" s with
  | Some (_, tag) => PyStr.any_in Catalog.invalid_tags (PyStr.lower tag)
  | None => false
  end
  = match PyStr.split_once ":" (PyStr.lower s) with
    | Some (_, tag) => PyStr.any_in Catalog.invalid_tags tag
    | None => false
    end.
Proof.
  rewrite split_once_lower. now destruct (PyStr.split_once ":" s) as [[a b]|].
Qed.

(** X4: the filter is blind to letter case: two names that are equal
    once lowered are both accepted or both rejected. *)
Theorem accepts_case_insensitive (x y : string) :
  PyStr.lower x = PyStr.lower y -> Catalog.accepts x = Catalog.accepts y.
Proof.
  intros H. unfold Catalog.accepts. rewrite !tag_check_lower, H. reflexivity.
Qed.

Lemma accepts_case_insensitive_witness :
  Catalog.accepts "Llama3.2:Latest" = Catalog.accepts "llama3.2:latest".
Proof. apply accepts_case_insensitive. reflexivity. Defined.

(** X5: no name the filter returns holds, in lower case, one of the
    skipped keywords, a deprecated name or a size marker of a very large
    model, and every name it returns holds one of the accepted family
    names and comes from the input. *)
Theorem filter_valid_models_sound (xs : list string) (x : string) :
  In x (Catalog.filter_valid_models xs) ->
  In x xs /\
  PyStr.any_in Catalog.skip_keywords (PyStr.lower x) = false /\
  PyStr.any_in Catalog.deprecated_models (PyStr.lower x) = false /\
  PyStr.any_in Catalog.large_sizes (PyStr.lower x) = false /\
  PyStr.any_in Catalog.valid_patterns (PyStr.lower x) = true.
Proof.
  intros Hin. unfold Catalog.filter_valid_models in Hin.
  rewrite filter_loop_filter in Hin. simpl in Hin.
  apply sorted_In, filter_In in Hin. destruct Hin as [Hin Hacc].
  split; [exact Hin|]. unfold Catalog.accepts in Hacc.
  destruct (PyStr.any_in Catalog.skip_keywords _); [discriminate|].
  destruct (andb _ _); [discriminate|].
  destruct (match PyStr.split_once ":" x with Some _ => _ | None => _ end);
    [discriminate|].
  destruct (PyStr.any_in Catalog.deprecated_models _); [discriminate|].
  destruct (PyStr.any_in Catalog.large_sizes _); [discriminate|].
  now repeat split.
Qed.

Lemma filter_valid_models_sound_witness :
  In "llama3:latest" ["llama3:latest"; "llava-vision:latest"] /\
  PyStr.any_in Catalog.valid_patterns (PyStr.lower "llama3:latest") = true.
Proof.
  destruct (filter_valid_models_sound
              ["llama3:latest"; "llava-vision:latest"] "llama3:latest")
    as (H1 & _ & _ & _ & H2); [vm_compute; now left | now split].
Defined.

End CatalogCase.

(* ================================================================== *)
(** * More on the chat worker *)

Section WorkerShape.

Import OllamaWorker.

(** What a run of the loop emits, whatever the stream: content events,
    then at most one closing event, with the accumulated response equal
    to the content emitted. *)
Lemma stream_loop_shape (response : list (stream_event Chunk)) :
  forall w : t,
    exists (texts : list string) (closing : list Signal),
      fst (stream_loop w response) = map message_chunk texts ++ closing /\
      full_response (snd (stream_loop w response))
      = (full_response w ++ PyStr.join texts)%string /\
      (closing = [] \/
       closing = [message_complete
                    (full_response w ++ PyStr.join texts)%string] \/
       exists msg, closing = [error_occurred msg]).
Proof.
  induction response as [|e rest IH]; intros w.
  - exists [], []. simpl. rewrite append_empty_r. auto.
  - destruct e as [chunk|msg|].
    + cbn [stream_loop]. destruct (is_cancelled w).
      { exists [], []. simpl. rewrite append_empty_r. auto. }
      destruct (PyStr.truthy (get_content chunk)) eqn:E.
      * destruct (get_done chunk).
        -- exists [get_content chunk], [message_complete (full_response
             (add_response w (get_content chunk)))].
           simpl. rewrite append_empty_r. auto.
        -- destruct (IH (add_response w (get_content chunk)))
             as (texts & closing & Hout & Hfull & Hclose).
           destruct (stream_loop (add_response w (get_content chunk)) rest)
             as [out w2]. simpl in *.
           exists (get_content chunk :: texts), closing.
           unfold PyStr.join in *. simpl. rewrite <- append_assoc.
           subst out. auto.
      * destruct (get_done chunk).
        -- exists [], [message_complete (full_response w)].
           simpl. rewrite append_empty_r. auto.
        -- destruct (IH w) as (texts & closing & Hout & Hfull & Hclose).
           destruct (stream_loop w rest) as [out w2]. simpl in *.
           exists texts, closing. auto.
    + cbn [stream_loop]. destruct (is_cancelled w).
      * exists [], []. simpl. rewrite append_empty_r. auto.
      * exists [], [error_occurred msg]. simpl. rewrite append_empty_r.
        repeat split; eauto.
    + cbn [stream_loop]. destruct (IH (cancel w))
        as (texts & closing & Hout & Hfull & Hclose).
      exists texts, closing. auto.
Qed.

(** A worker that has been asked to stop emits nothing. *)
Lemma stream_loop_cancelled (response : list (stream_event Chunk)) :
  forall w : t, is_cancelled w = true -> fst (stream_loop w response) = [].
Proof.
  induction response as [|e rest IH]; intros w Hw; [reflexivity|].
  destruct e as [chunk|msg|]; cbn [stream_loop]; try now rewrite Hw.
  now apply IH.
Qed.

(** X6: whatever the server sends and whenever a cancel request comes,
    a run emits a series of content events followed by at most one
    closing event, a completion or an error and never both; a completion
    carries exactly the concatenation of the content events of the run. *)
Theorem run_emits_one_closing_event (m : string) (msgs : list ChatMessage)
    (api : APIConfig) (cfg : ModelConfig)
    (response : list (stream_event Chunk)) :
  exists (texts : list string) (closing : list Signal),
    signals (fst (run (init m msgs api cfg) response))
    = map message_chunk texts ++ closing /\
    (closing = [] \/
     closing = [message_complete (PyStr.join texts)] \/
     exists msg, closing = [error_occurred msg]).
Proof.
  rewrite run_signals by reflexivity.
  destruct (stream_loop_shape response (init m msgs api cfg))
    as (texts & closing & Hout & _ & Hclose).
  exists texts, closing. split; [exact Hout | exact Hclose].
Qed.

(** X7: once a cancel request has come, the worker emits no further
    event, whatever follows in the stream: neither content nor a
    completion nor an error.  What was streamed before stays emitted. *)
Theorem run_cancel_mid_stream (m : string) (msgs : list ChatMessage)
    (api : APIConfig) (cfg : ModelConfig)
    (cs : list Chunk) (rest : list (stream_event Chunk)) :
  Forall (fun c => get_done c = false) cs ->
  signals (fst (run (init m msgs api cfg)
                    (map Deliver cs ++ CancelRequest :: rest)))
  = map message_chunk (fragments cs).
Proof.
  intros Hcs. rewrite run_signals by reflexivity.
  destruct (stream_loop_chunks cs (init m msgs api cfg)
              (CancelRequest :: rest) eq_refl Hcs) as (w' & _ & _ & Hloop).
  rewrite Hloop. cbn [fst stream_loop].
  rewrite stream_loop_cancelled by reflexivity. apply app_nil_r.
Qed.

Lemma run_cancel_mid_stream_witness :
  signals (fst (run (init "llama3" [] example_api example_config)
    (map Deliver [ {| chunk_content := Some "Hel"; chunk_done := None |} ]
     ++ CancelRequest
     :: [ Deliver {| chunk_content := Some "lo"; chunk_done := Some true |} ])))
  = [message_chunk "Hel"].
Proof.
  refine (run_cancel_mid_stream "llama3" [] example_api example_config
            [ {| chunk_content := Some "Hel"; chunk_done := None |} ] _ _).
  repeat constructor.
Defined.

End WorkerShape.

(* ================================================================== *)
(** * A send and the exchange that follows it *)

Section ExchangeFacts.

Import OllamaWorker.

Lemma truthy_strip_blank (s : string) :
  PyStr.blank s = true -> PyStr.truthy (PyStr.strip s) = false.
Proof. intros H. now rewrite strip_truthy, H. Qed.

(** X8: a send with nothing but white space in the input box, or with
    no model selected, changes nothing: the transcript and the input box
    stay as they are, no worker is started and none is waited for. *)
Theorem send_message_nothing_to_send (app : MainWindow.t) (now : Z)
    (response : list (stream_event Chunk)) :
  PyStr.blank (MainWindow.input_text app) = true \/
  MainWindow.current_model app = EmptyString ->
  MainWindow.send_message app now response
  = {| MainWindow.window := app; MainWindow.prior_signals := [];
       MainWindow.prior_thread := None |}.
Proof.
  intros [H|H]; unfold MainWindow.send_message.
  - now rewrite truthy_strip_blank.
  - rewrite H. simpl. now destruct (negb _).
Qed.

Lemma send_message_nothing_to_send_witness :
  let app :=
    {| MainWindow.input_text := "   ";
       MainWindow.current_model := "llama3";
       MainWindow.message_history := [];
       MainWindow.ollama_worker := None;
       MainWindow.api_config := example_api;
       MainWindow.model_config := example_config |} in
  MainWindow.send_message app 0 []
  = {| MainWindow.window := app; MainWindow.prior_signals := [];
       MainWindow.prior_thread := None |}.
Proof.
  intros app. apply send_message_nothing_to_send. left. reflexivity.
Defined.

(** What a send that goes through leaves in the window. *)
Lemma send_message_window (app : MainWindow.t) (now : Z)
    (response : list (stream_event Chunk)) :
  PyStr.blank (MainWindow.input_text app) = false ->
  MainWindow.current_model app <> EmptyString ->
  MainWindow.window (MainWindow.send_message app now response)
  = {| MainWindow.input_text := EmptyString;
       MainWindow.current_model := MainWindow.current_model app;
       MainWindow.message_history :=
         MainWindow.message_history app
         ++ [MainWindowSlots.user_message app now];
       MainWindow.ollama_worker :=
         Some {| MainWindow.worker :=
                   init (MainWindow.current_model app)
                     (MainWindow.message_history app
                      ++ [MainWindowSlots.user_message app now])
                     (MainWindow.api_config app)
                     (MainWindow.model_config app);
                 MainWindow.pending := response |};
       MainWindow.api_config := MainWindow.api_config app;
       MainWindow.model_config := MainWindow.model_config app |}.
Proof.
  intros Htext Hmodel. unfold MainWindow.send_message.
  rewrite strip_truthy, Htext. cbn [negb].
  destruct (MainWindow.current_model app) eqn:E; [congruence|].
  cbn [PyStr.truthy negb].
  destruct (MainWindow.ollama_worker (MainWindow.history_append app _))
    as [th|].
  - destruct (MainWindow.thread_wait (MainWindow.thread_quit th)) as [out th'].
    unfold MainWindowSlots.user_message. now rewrite E.
  - unfold MainWindowSlots.user_message. now rewrite E.
Qed.

(** No signal is queued by a send made when no worker is streaming. *)
Lemma idle_no_prior_signals (app : MainWindow.t) (now : Z)
    (response : list (stream_event Chunk)) :
  MainWindowSlots.idle app ->
  MainWindow.prior_signals (MainWindow.send_message app now response) = [].
Proof.
  unfold MainWindowSlots.idle, MainWindow.send_message. intros Hidle.
  destruct (negb (PyStr.truthy (PyStr.strip (MainWindow.input_text app))));
    [reflexivity|].
  destruct (negb (PyStr.truthy (MainWindow.current_model app)));
    [reflexivity|].
  cbn [MainWindow.history_append MainWindow.ollama_worker].
  destruct (MainWindow.ollama_worker app) as [th|]; [|reflexivity].
  cbn [option_map].
  unfold MainWindow.thread_wait, MainWindow.thread_quit, MainWindow.sharing.
  cbn [MainWindow.worker MainWindow.pending]. now rewrite Hidle.
Qed.

(** The request holds the messages of the list in order. *)
Lemma ollama_messages_app (cfg : ModelConfig) (msgs more : list ChatMessage) :
  ollama_messages cfg (msgs ++ more)
  = ollama_messages cfg msgs
    ++ map (fun msg => [("role", role msg); ("content", content msg)]) more.
Proof. unfold ollama_messages. now rewrite map_app, app_assoc. Qed.

Lemma deliver_model (clock : Z) (app : MainWindow.t) (s : Signal) :
  MainWindow.current_model (MainWindowSlots.deliver clock app s)
  = MainWindow.current_model app.
Proof. now destruct s. Qed.

Lemma deliver_all_model (clock : Z) (out : list Signal) :
  forall app : MainWindow.t,
    MainWindow.current_model (MainWindowSlots.deliver_all clock app out)
    = MainWindow.current_model app.
Proof.
  unfold MainWindowSlots.deliver_all.
  induction out as [|s out IH]; intros app; cbn [fold_left]; [reflexivity|].
  rewrite IH. apply deliver_model.
Qed.

(** Delivered signals add one assistant message for each completion
    event, in order, and nothing else. *)
Lemma deliver_all_history (clock : Z) (out : list Signal) :
  forall app : MainWindow.t,
    MainWindow.message_history (MainWindowSlots.deliver_all clock app out)
    = MainWindow.message_history app
      ++ map (MainWindowSlots.assistant_message app clock)
           (MainWindowSlots.completions out).
Proof.
  unfold MainWindowSlots.deliver_all.
  induction out as [|s out IH]; intros app; cbn [fold_left].
  - cbn. now rewrite app_nil_r.
  - rewrite IH.
    replace (MainWindowSlots.assistant_message
               (MainWindowSlots.deliver clock app s) clock)
      with (MainWindowSlots.assistant_message app clock)
      by (unfold MainWindowSlots.assistant_message;
          now rewrite deliver_model).
    destruct s as [text|text|text]; cbn; [reflexivity | | reflexivity].
    now rewrite <- app_assoc.
Qed.

Lemma sharing_same (th : MainWindow.thread) :
  MainWindow.sharing (messages (MainWindow.worker th)) th = th.
Proof. destruct th as [w p]. now destruct w. Qed.

(** The worker of the window holds the list of the window, whatever is
    delivered: it sees each message that a slot appends. *)
Lemma deliver_all_worker (clock : Z) (out : list Signal) :
  forall (app : MainWindow.t) (th : MainWindow.thread),
    MainWindow.ollama_worker app = Some th ->
    messages (MainWindow.worker th) = MainWindow.message_history app ->
    MainWindow.ollama_worker (MainWindowSlots.deliver_all clock app out)
    = Some (MainWindow.sharing
              (MainWindow.message_history
                 (MainWindowSlots.deliver_all clock app out)) th).
Proof.
  unfold MainWindowSlots.deliver_all.
  induction out as [|s out IH]; intros app th Hth Hshared; cbn [fold_left].
  - rewrite Hth, <- Hshared. now rewrite sharing_same.
  - destruct s as [text|text|text]; cbn [MainWindowSlots.deliver];
      try now apply IH.
    rewrite (IH _ (MainWindow.sharing
                     (MainWindow.message_history
                        (MainWindowSlots.on_response_received app clock text))
                     th)).
    + reflexivity.
    + cbn. now rewrite Hth.
    + reflexivity.
Qed.

(** X9: a send that goes through empties the input box, appends the
    stripped text to the transcript as one user message, and starts a
    worker on the list of the window itself.  The request of the worker
    carries the transcript as it was, then that user message, then one
    assistant message for each completion event of the prior worker that
    the window has received by the time the new thread reads the list.
    When no earlier worker is streaming there is none: the user message
    is the last element of the request. *)
Theorem send_message_request (app : MainWindow.t) (now clock : Z)
    (response : list (stream_event Chunk)) (early : nat) :
  PyStr.blank (MainWindow.input_text app) = false ->
  MainWindow.current_model app <> EmptyString ->
  let s := MainWindow.send_message app now response in
  let answered :=
    MainWindowSlots.completions (firstn early (MainWindow.prior_signals s)) in
  MainWindow.input_text (MainWindow.window s) = EmptyString /\
  MainWindow.message_history (MainWindow.window s)
  = MainWindow.message_history app ++ [MainWindowSlots.user_message app now] /\
  (MainWindowSlots.idle app -> answered = []) /\
  exists th out,
    MainWindow.ollama_worker (MainWindowSlots.at_read clock s early) = Some th /\
    fst (run (MainWindow.worker th) (MainWindow.pending th))
    = Chat (base_url (MainWindow.api_config app))
        (MainWindow.current_model app)
        (ollama_messages (MainWindow.model_config app)
           (MainWindow.message_history app)
         ++ [("role", "user");
             ("content", PyStr.strip (MainWindow.input_text app))]
            :: map (fun text => [("role", "assistant"); ("content", text)])
                 answered)
      :: map Emit out.
Proof.
  intros Htext Hmodel s answered.
  pose proof (send_message_window app now response Htext Hmodel) as Hwin.
  fold s in Hwin.
  split; [now rewrite Hwin|]. split; [now rewrite Hwin|]. split.
  { intros Hidle. unfold answered, s.
    now rewrite idle_no_prior_signals, firstn_nil. }
  unfold MainWindowSlots.at_read.
  set (queued := firstn early (MainWindow.prior_signals s)).
  eexists.
  destruct (stream_loop
              (init (MainWindow.current_model app)
                 (MainWindow.message_history
                    (MainWindowSlots.deliver_all clock (MainWindow.window s)
                       queued))
                 (MainWindow.api_config app) (MainWindow.model_config app))
              response) as [out w'] eqn:E.
  exists out. split.
  - apply deliver_all_worker; rewrite Hwin; reflexivity.
  - rewrite Hwin at 2. unfold run.
    cbn [MainWindow.sharing MainWindow.worker MainWindow.pending
         MainWindow.set_messages init is_cancelled api_config w_model
         model_config messages].
    match goal with
    | |- context [MainWindow.set_messages (init ?m _ ?a ?c) ?h] =>
        change (MainWindow.set_messages (init m _ a c) h) with (init m h a c)
    end.
    rewrite E. cbn [fst]. f_equal. f_equal.
    rewrite deliver_all_history, Hwin. cbn [MainWindow.message_history].
    rewrite !ollama_messages_app, map_map, <- app_assoc. reflexivity.
Qed.

Lemma send_message_request_witness :
  let app :=
    {| MainWindow.input_text := " hi ";
       MainWindow.current_model := "llama3";
       MainWindow.message_history := [];
       MainWindow.ollama_worker := None;
       MainWindow.api_config := example_api;
       MainWindow.model_config := example_config |} in
  exists th out,
    MainWindow.ollama_worker
      (MainWindowSlots.at_read 9 (MainWindow.send_message app 7 []) 0)
    = Some th /\
    fst (run (MainWindow.worker th) (MainWindow.pending th))
    = Chat (base_url example_api) "llama3"
        (ollama_messages example_config []
         ++ [ [("role", "user"); ("content", "hi")] ])
      :: map Emit out.
Proof.
  intros app.
  destruct (send_message_request app 7 9 [] 0) as (_ & _ & _ & th & out & H);
    [reflexivity | discriminate |].
  exists th, out. exact H.
Defined.

Lemma deliver_chunks (now : Z) (app : MainWindow.t) (texts : list string) :
  MainWindowSlots.deliver_all now app (map message_chunk texts) = app.
Proof.
  unfold MainWindowSlots.deliver_all.
  induction texts as [|x texts IH]; simpl; [reflexivity | exact IH].
Qed.

Lemma deliver_app (now : Z) (app : MainWindow.t) (a b : list Signal) :
  MainWindowSlots.deliver_all now app (a ++ b)
  = MainWindowSlots.deliver_all now
      (MainWindowSlots.deliver_all now app a) b.
Proof. unfold MainWindowSlots.deliver_all. apply fold_left_app. Qed.

(** The signals of a fresh worker on a stream that reaches its [done]
    chunk. *)
Lemma fresh_run_done (m : string) (msgs : list ChatMessage)
    (api : APIConfig) (cfg : ModelConfig)
    (cs : list Chunk) (d : Chunk) (rest : list (stream_event Chunk)) :
  Forall (fun c => get_done c = false) cs -> get_done d = true ->
  signals (fst (run (init m msgs api cfg)
                    (map Deliver cs ++ Deliver d :: rest)))
  = map message_chunk (fragments (cs ++ [d]))
    ++ [message_complete (PyStr.join (fragments (cs ++ [d])))].
Proof.
  intros Hcs Hd. rewrite run_signals by reflexivity.
  destruct (stream_loop_chunks cs (init m msgs api cfg)
              (Deliver d :: rest) eq_refl Hcs) as (w' & Hw' & Hfull & Hloop).
  rewrite Hloop. cbn [fst stream_loop]. rewrite Hw', Hd.
  rewrite fragments_app, map_app, join_app, <- app_assoc.
  f_equal. simpl in Hfull.
  rewrite (fragments_cons d []). change (fragments []) with (@nil string).
  destruct (PyStr.truthy (get_content d)) eqn:E;
    cbn [fst map app PyStr.join fold_right full_response add_response];
    rewrite Hfull, ?append_empty_r; reflexivity.
Qed.

(** X10: a complete exchange.  When no earlier worker is streaming, a
    send whose answer streams to its [done] chunk leaves the transcript
    extended by exactly two messages once the signals of the worker are
    delivered: the user message, then an assistant message that holds the
    concatenation of the streamed fragments. *)
Theorem exchange_completed (app : MainWindow.t) (now later : Z)
    (cs : list Chunk) (d : Chunk) (rest : list (stream_event Chunk)) :
  PyStr.blank (MainWindow.input_text app) = false ->
  MainWindow.current_model app <> EmptyString ->
  MainWindowSlots.idle app ->
  Forall (fun c => get_done c = false) cs -> get_done d = true ->
  let sent :=
    MainWindow.send_message app now (map Deliver cs ++ Deliver d :: rest) in
  MainWindow.prior_signals sent = [] /\
  exists th,
    MainWindow.ollama_worker (MainWindow.window sent) = Some th /\
    MainWindow.message_history
      (MainWindowSlots.deliver_all later (MainWindow.window sent)
         (signals (fst (run (MainWindow.worker th) (MainWindow.pending th)))))
    = MainWindow.message_history app
      ++ [ MainWindowSlots.user_message app now;
           MainWindowSlots.assistant_message app later
             (PyStr.join (fragments (cs ++ [d]))) ].
Proof.
  intros Htext Hmodel Hidle Hcs Hd sent. unfold sent.
  split; [now apply idle_no_prior_signals|].
  rewrite send_message_window by assumption.
  eexists. split; [reflexivity|].
  cbn [MainWindow.worker MainWindow.pending].
  rewrite fresh_run_done by assumption.
  rewrite deliver_app, deliver_chunks.
  cbn. now rewrite <- app_assoc.
Qed.

Lemma exchange_completed_witness :
  let app :=
    {| MainWindow.input_text := "hi";
       MainWindow.current_model := "llama3";
       MainWindow.message_history := [];
       MainWindow.ollama_worker := None;
       MainWindow.api_config := example_api;
       MainWindow.model_config := example_config |} in
  MainWindow.prior_signals
    (MainWindow.send_message app 1
       (map Deliver [ {| chunk_content := Some "Hel"; chunk_done := None |} ]
        ++ Deliver {| chunk_content := Some "lo"; chunk_done := Some true |}
        :: [])) = [].
Proof.
  intros app.
  refine (proj1 (exchange_completed app 1 2
                   [ {| chunk_content := Some "Hel"; chunk_done := None |} ]
                   {| chunk_content := Some "lo"; chunk_done := Some true |}
                   [] _ _ _ _ _));
    [reflexivity | discriminate | exact I | repeat constructor | reflexivity].
Defined.

(** The completion events among the signals of a loop: at most one. *)
Lemma completions_shape (texts : list string) (closing : list Signal) :
  closing = [] \/
  (exists text, closing = [message_complete text]) \/
  (exists msg, closing = [error_occurred msg]) ->
  MainWindowSlots.completions (map message_chunk texts ++ closing) = [] \/
  exists text,
    MainWindowSlots.completions (map message_chunk texts ++ closing) = [text].
Proof.
  intros H. unfold MainWindowSlots.completions. rewrite flat_map_app.
  replace (flat_map _ (map message_chunk texts)) with (@nil string)
    by (induction texts as [|x texts IH]; [reflexivity | exact IH]).
  destruct H as [->|[[text ->]|[msg ->]]]; cbn; eauto.
Qed.

(** What the prior worker emits while [send_message] waits for it. *)
Lemma prior_signals_shape (app : MainWindow.t) (now : Z)
    (response : list (stream_event Chunk)) :
  exists (texts : list string) (closing : list Signal),
    MainWindow.prior_signals (MainWindow.send_message app now response)
    = map message_chunk texts ++ closing /\
    (closing = [] \/
     (exists text, closing = [message_complete text]) \/
     (exists msg, closing = [error_occurred msg])).
Proof.
  unfold MainWindow.send_message.
  destruct (negb (PyStr.truthy (PyStr.strip (MainWindow.input_text app))));
    [exists [], []; auto|].
  destruct (negb (PyStr.truthy (MainWindow.current_model app)));
    [exists [], []; auto|].
  destruct (MainWindow.ollama_worker (MainWindow.history_append app _))
    as [th|]; [|exists [], []; auto].
  unfold MainWindow.thread_wait, MainWindow.thread_quit.
  destruct (stream_loop_shape (MainWindow.pending th) (MainWindow.worker th))
    as (texts & closing & Hout & _ & Hclose).
  destruct (stream_loop (MainWindow.worker th) (MainWindow.pending th))
    as [out w']. cbn [fst] in Hout. cbn [MainWindow.prior_signals].
  exists texts, closing. split; [exact Hout|].
  destruct Hclose as [H|[H|H]]; eauto.
Qed.

(** X11: whatever the prior worker and the answer stream do, an exchange
    never changes or removes what the transcript held.  After the user
    message it adds one assistant message for the completion event of the
    prior worker, when that worker was still streaming and reached its
    [done] chunk during the wait (at most one, none in an idle window),
    and then at most one assistant message for the new worker.  When the
    answer stream breaks by an exception before a [done] chunk the new
    worker adds none: the text streamed so far is dropped. *)
Theorem exchange_appends (app : MainWindow.t) (now clock later : Z)
    (response : list (stream_event Chunk)) (early : nat) :
  PyStr.blank (MainWindow.input_text app) = false ->
  MainWindow.current_model app <> EmptyString ->
  let s := MainWindow.send_message app now response in
  let queued := MainWindow.prior_signals s in
  let kept :=
    MainWindow.message_history app
    ++ MainWindowSlots.user_message app now
       :: map (MainWindowSlots.assistant_message app clock)
            (MainWindowSlots.completions queued) in
  (MainWindowSlots.completions queued = [] \/
   exists text, MainWindowSlots.completions queued = [text]) /\
  (MainWindowSlots.idle app -> queued = []) /\
  exists th,
    MainWindow.ollama_worker (MainWindowSlots.at_read clock s early) = Some th /\
    let final :=
      MainWindowSlots.deliver_all later
        (MainWindowSlots.deliver_all clock (MainWindow.window s) queued)
        (signals (fst (run (MainWindow.worker th) (MainWindow.pending th)))) in
    (MainWindow.message_history final = kept \/
     exists text,
       MainWindow.message_history final
       = kept ++ [MainWindowSlots.assistant_message app later text]) /\
    (forall cs msg rest,
       Forall (fun c => get_done c = false) cs ->
       response = map Deliver cs ++ Raise msg :: rest ->
       MainWindow.message_history final = kept).
Proof.
  intros Htext Hmodel s queued kept.
  pose proof (send_message_window app now response Htext Hmodel) as Hwin.
  fold s in Hwin.
  split.
  { destruct (prior_signals_shape app now response)
      as (texts & closing & Hout & Hclose).
    unfold queued, s. rewrite Hout. now apply completions_shape. }
  split; [intros Hidle; now apply idle_no_prior_signals|].
  eexists. split.
  { unfold MainWindowSlots.at_read.
    apply deliver_all_worker; rewrite Hwin; reflexivity. }
  cbn [MainWindow.sharing MainWindow.worker MainWindow.pending].
  match goal with
  | |- context [MainWindow.set_messages (init ?m _ ?a ?c) ?h] =>
      change (MainWindow.set_messages (init m _ a c) h) with (init m h a c);
      set (w := init m h a c)
  end.
  assert (Hkept : MainWindow.message_history
                    (MainWindowSlots.deliver_all clock (MainWindow.window s)
                       queued) = kept).
  { rewrite deliver_all_history, Hwin. cbn [MainWindow.message_history].
    unfold kept. now rewrite <- app_assoc. }
  assert (Hmodel' : MainWindowSlots.assistant_message
                      (MainWindowSlots.deliver_all clock (MainWindow.window s)
                         queued) later
                    = MainWindowSlots.assistant_message app later).
  { unfold MainWindowSlots.assistant_message.
    now rewrite deliver_all_model, Hwin. }
  split.
  - rewrite run_signals by reflexivity.
    destruct (stream_loop_shape response w)
      as (texts & closing & Hout & _ & Hclose).
    rewrite Hout, deliver_all_history, Hkept, Hmodel'.
    destruct (completions_shape texts closing) as [->|[text ->]].
    + destruct Hclose as [H|[H|H]]; eauto.
    + left. cbn. apply app_nil_r.
    + right. exists text. reflexivity.
  - intros cs msg rest Hcs ->. rewrite run_signals by reflexivity.
    destruct (stream_loop_chunks cs w (Raise msg :: rest) eq_refl Hcs)
      as (w' & Hw' & _ & Hloop).
    rewrite Hloop. cbn [fst stream_loop]. rewrite Hw'.
    rewrite deliver_app, deliver_chunks. exact Hkept.
Qed.

Lemma exchange_appends_witness :
  let prior :=
    {| MainWindow.worker :=
         add_response (init "llama3" [] example_api example_config) "Hel";
       MainWindow.pending :=
         [ Deliver {| chunk_content := Some "lo"; chunk_done := Some true |} ] |} in
  let app :=
    {| MainWindow.input_text := "next";
       MainWindow.current_model := "llama3";
       MainWindow.message_history := [];
       MainWindow.ollama_worker := Some prior;
       MainWindow.api_config := example_api;
       MainWindow.model_config := example_config |} in
  let s := MainWindow.send_message app 1 [Raise "boom"] in
  exists th,
    MainWindow.ollama_worker (MainWindowSlots.at_read 2 s 0) = Some th /\
    MainWindow.message_history
      (MainWindowSlots.deliver_all 3
         (MainWindowSlots.deliver_all 2 (MainWindow.window s)
            (MainWindow.prior_signals s))
         (signals (fst (run (MainWindow.worker th) (MainWindow.pending th)))))
    = [ {| role := "user"; content := "next"; timestamp := 1;
           model := "llama3"; tokens := 0 |};
        {| role := "assistant"; content := "Hello"; timestamp := 2;
           model := "llama3"; tokens := 0 |} ].
Proof.
  intros prior app s.
  destruct (exchange_appends app 1 2 3 [Raise "boom"] 0)
    as (_ & _ & th & Hth & _ & Hraise); [reflexivity | discriminate |].
  exists th. split; [exact Hth|].
  exact (Hraise [] "boom" [] (Forall_nil _) eq_refl).
Defined.

End ExchangeFacts.

(* ================================================================== *)
(** * More on the pull operation *)

Section PullShape.

Import ModelManager.

Lemma prefix_append (sub b : string) : String.prefix sub (sub ++ b) = true.
Proof.
  induction sub as [|c sub IH]; simpl; [now destruct b|].
  destruct (ascii_dec c c); [exact IH | congruence].
Qed.

Lemma contains_prefix (sub s : string) :
  String.prefix sub s = true -> PyStr.contains sub s = true.
Proof. intros H. destruct s; cbn [PyStr.contains]; now rewrite H. Qed.

Lemma contains_append (sub a b : string) :
  PyStr.contains sub (a ++ sub ++ b) = true.
Proof.
  induction a as [|c a IH].
  - cbn [append]. apply contains_prefix. apply (prefix_append sub b).
  - change (String c a ++ sub ++ b)%string
      with (String c (a ++ sub ++ b)%string).
    cbn [PyStr.contains].
    destruct (String.prefix sub (String c (a ++ sub ++ b))); [reflexivity|].
    exact IH.
Qed.

(** Only progress updates and the error of the pull are settled before
    what ends the stream. *)
Lemma settle_success (m : t) (n : string) (ps : list Progress) :
  forall (total0 completed0 : Z) (finish : list Signal),
    In (model_pulled n)
       (settle m (progress_events total0 completed0 ps) finish) ->
    In (model_pulled n) finish.
Proof.
  induction ps as [|p ps IH]; intros total0 completed0 finish; [auto|].
  rewrite progress_events_cons. unfold progress_event at 1.
  destruct (0 <? _).
  - destruct (percentage _ _); simpl.
    + intros [H|H]; [discriminate | eauto].
    + intros [H|[]]. discriminate.
  - simpl. intros [H|H]; [discriminate | eauto].
Qed.

(** X12: when the transport breaks during a pull that has not been
    cancelled, the pull ends with one error event, whose text names the
    server address and carries the text of the exception; the success
    event is not emitted. *)
Theorem pull_transport_error (m : t) (name : string) (ps : list Progress)
    (msg : string) (rest : list (stream_event Progress)) :
  PyStr.truthy name = true ->
  let out := signals (fst (_pull_model (pull_model m name)
                             (map Deliver ps ++ Raise msg :: rest))) in
  let text := ("Failed to download to remote server "
               ++ base_url (api_config m) ++ ": " ++ msg)%string in
  out = starting name
        :: settle (pull_model m name) (progress_events 0 0 ps)
             [error_occurred text] /\
  PyStr.contains (base_url (api_config m)) text = true /\
  PyStr.contains msg text = true /\
  forall n, ~ In (model_pulled n) out.
Proof.
  intros Hname out text.
  assert (Hout : out = starting name
                       :: settle (pull_model m name) (progress_events 0 0 ps)
                            [error_occurred text]).
  { unfold out. rewrite pull_model_signals by exact Hname. f_equal.
    now rewrite pull_loop_updates by reflexivity. }
  split; [exact Hout|]. split; [apply contains_append|]. split.
  - replace text
      with (("Failed to download to remote server "
             ++ base_url (api_config m) ++ ": ") ++ msg ++ EmptyString)%string;
      [apply contains_append|].
    unfold text. now rewrite append_empty_r, !append_assoc.
  - intros n Hin. rewrite Hout in Hin. destruct Hin as [H|H]; [discriminate|].
    apply settle_success in H. destruct H as [H|[]]. discriminate.
Qed.

Lemma pull_transport_error_witness :
  signals (fst (_pull_model (pull_model (init example_api) "llama3")
                  (map Deliver [] ++ Raise "connection reset" :: [])))
  = [ pull_progress (-1) "Starting download of llama3 to remote server...";
      error_occurred
        "Failed to download to remote server http://localhost:11434: connection reset" ].
Proof.
  refine (eq_trans
            (proj1 (pull_transport_error (init example_api) "llama3" [] _ _ _))
            _); reflexivity.
Defined.

(** What the loop of a pull emits, whatever the stream: progress updates
    and then at most one closing event. *)
Lemma pull_loop_shape (stream : list (stream_event Progress)) :
  forall (m : t) (name : string) (total0 completed0 : Z),
    exists (updates : list (Z * string)) (closing : list Signal),
      fst (pull_loop m name total0 completed0 stream)
      = map (fun u => pull_progress (fst u) (snd u)) updates ++ closing /\
      (closing = [] \/ closing = [model_pulled name] \/
       exists msg, closing = [download_failed m msg]).
Proof.
  induction stream as [|e rest IH]; intros m name total0 completed0.
  - exists []. simpl. destruct (is_cancelled m); eauto.
  - destruct e as [p|msg|]; cbn [pull_loop].
    + destruct (is_cancelled m) eqn:Hm.
      * exists [(0, "Download cancelled")], []. auto.
      * set (t1 := update (total p) total0).
        set (c1 := update (completed p) completed0).
        destruct (IH m name t1 c1) as (updates & closing & Hout & Hclose).
        destruct (0 <? t1).
        -- destruct (percentage c1 t1) as [pct|msg].
           ++ destruct (pull_loop m name t1 c1 rest) as [out m'].
              simpl in Hout. subst out.
              eexists ((pct, _) :: updates), closing. simpl. eauto.
           ++ exists [], [download_failed m msg]. unfold on_exception.
              rewrite Hm. simpl. eauto.
        -- destruct (pull_loop m name t1 c1 rest) as [out m'].
           simpl in Hout. subst out.
           eexists ((-1, _) :: updates), closing. simpl. eauto.
    + unfold on_exception. destruct (is_cancelled m).
      * exists [], []. auto.
      * exists [], [download_failed m msg]. simpl. eauto.
    + destruct (IH (cancel_operation m) name total0 completed0)
        as (updates & closing & Hout & Hclose).
      exists updates, closing. split; [exact Hout|].
      destruct Hclose as [H|[H|[msg H]]]; eauto.
Qed.

(** X13: whatever the server sends and whenever a cancel request comes,
    a pull with a model name emits the starting update, then progress
    updates, then at most one closing event: the success event or an
    error event, never both and never followed by anything. *)
Theorem pull_emits_one_closing_event (m : t) (name : string)
    (stream : list (stream_event Progress)) :
  PyStr.truthy name = true ->
  exists (updates : list (Z * string)) (closing : list Signal),
    signals (fst (_pull_model (pull_model m name) stream))
    = starting name
      :: map (fun u => pull_progress (fst u) (snd u)) updates ++ closing /\
    (closing = [] \/ closing = [model_pulled name] \/
     exists text, closing = [error_occurred text]).
Proof.
  intros Hname. rewrite pull_model_signals by exact Hname.
  destruct (pull_loop_shape stream (pull_model m name) name 0 0)
    as (updates & closing & Hout & Hclose).
  exists updates, closing. split; [now rewrite Hout|].
  destruct Hclose as [H|[H|[msg H]]]; eauto.
Qed.

Lemma pull_emits_one_closing_event_witness :
  exists (updates : list (Z * string)) (closing : list Signal),
    signals (fst (_pull_model (pull_model (init example_api) "llama3")
                    [CancelRequest; Raise "late"]))
    = starting "llama3"
      :: map (fun u => pull_progress (fst u) (snd u)) updates ++ closing.
Proof.
  destruct (pull_emits_one_closing_event (init example_api) "llama3"
              [CancelRequest; Raise "late"] eq_refl)
    as (updates & closing & H & _).
  now exists updates, closing.
Defined.

(** Nothing completed of a positive total is 0 percent. *)
Lemma percentage_zero (total_size : Z) :
  0 < total_size -> percentage 0 total_size = Ok 0.
Proof.
  intros Ht. unfold percentage, PyFloat.int_true_divide.
  destruct (Z.eqb_spec total_size 0) as [E|E]; [lia|].
  cbn [Z.eqb]. now destruct (total_size <? 0).
Qed.

Lemma div_eucl_self (p : positive) :
  Z.div_eucl (Z.shiftl (Z.pos p) 53) (Z.pos p) = (2 ^ 53, 0).
Proof.
  rewrite Z.shiftl_mul_pow2 by lia.
  destruct (Z.div_eucl (Z.pos p * 2 ^ 53) (Z.pos p)) as [q r] eqn:E.
  assert (Hq : q = Z.pos p * 2 ^ 53 / Z.pos p)
    by (unfold Z.div; now rewrite E).
  assert (Hr : r = (Z.pos p * 2 ^ 53) mod Z.pos p)
    by (unfold Z.modulo; now rewrite E).
  rewrite Z.mul_comm, Z.div_mul in Hq by lia.
  rewrite Z.mul_comm, Z.mod_mul in Hr by lia.
  now subst.
Qed.

(** A completed count equal to the total is 100 percent. *)
Lemma percentage_full (size : Z) : 0 < size -> percentage size size = Ok 100.
Proof.
  intros Hs. destruct size as [|p|p]; try lia.
  unfold percentage, PyFloat.int_true_divide, PyFloat.exact.
  cbn [Z.eqb Z.ltb Z.compare Z.abs Z.to_pos].
  unfold SpecFloat.SFdiv, SpecFloat.SFdiv_core_binary.
  cbn [SpecFloat.Zdigits2].
  replace (Z.pos (SpecFloat.digits2_pos p) + 0
           - (Z.pos (SpecFloat.digits2_pos p) + 0)) with 0 by lia.
  replace (Z.min (SpecFloat.fexp PyFloat.prec PyFloat.emax 0) (0 - 0))
    with (-53) by reflexivity.
  replace (0 - 0 - -53) with 53 by reflexivity.
  rewrite div_eucl_self.
  replace (SpecFloat.new_location (Z.pos p) 0) with SpecFloat.loc_Exact
    by (unfold SpecFloat.new_location, SpecFloat.new_location_even,
          SpecFloat.new_location_odd; now destruct (Z.even (Z.pos p))).
  reflexivity.
Qed.

Lemma settle_ok (m : t) (events finish : list Signal) :
  settle m (map (@Ok Signal) events) finish = events ++ finish.
Proof.
  induction events as [|e events IH]; simpl; [reflexivity | now rewrite IH].
Qed.

(** As long as no completed count has come, the count is the 0 it
    started with. *)
Lemma last_value_none (field : Progress -> option Z) (seen : list Progress)
    (start : Z) :
  Forall (fun p => field p = None) seen -> last_value start field seen = start.
Proof.
  intros H. unfold last_value, received.
  replace (flat_map _ seen) with (@nil Z); [reflexivity|].
  induction H as [|p seen Hp _ IH]; [reflexivity|].
  simpl. now rewrite Hp.
Qed.

Lemma Forall_first {A} (P : A -> Prop) (n : nat) (l : list A) :
  Forall P l -> Forall P (firstn n l).
Proof.
  intros H. rewrite <- (firstn_skipn n l) in H.
  now apply Forall_app in H.
Qed.

(** X14: as long as no update carries a completed count, a pull reports
    one event for each update, in order, and then the success event; the
    event of an update is 0 percent when the most recent total received
    so far is positive, and the indeterminate -1 otherwise (no total yet,
    or a total that is not positive). *)
Theorem pull_without_completed (m : t) (name : string) (ps : list Progress) :
  PyStr.truthy name = true ->
  Forall (fun p => completed p = None) ps ->
  signals (fst (_pull_model (pull_model m name) (map Deliver ps)))
  = starting name
    :: map (fun i =>
              let p := nth i ps no_update in
              if 0 <? last_value 0 total (firstn (S i) ps)
              then pull_progress 0
                     ("Downloading to remote server: " ++ get_status p
                      ++ " (0%)")%string
              else pull_progress (-1)
                     ("Remote download: " ++ get_status p)%string)
         (seq 0 (List.length ps))
    ++ [model_pulled name].
Proof.
  intros Hname Hps. rewrite pull_model_signals by exact Hname. f_equal.
  pose proof (pull_loop_updates ps (pull_model m name) name 0 0 [] eq_refl)
    as H.
  rewrite app_nil_r in H. rewrite H. cbn [pull_loop pull_model is_cancelled fst].
  rewrite <- settle_ok with (m := pull_model m name). f_equal.
  unfold progress_events. rewrite map_map. apply map_ext. intros i.
  unfold progress_event.
  rewrite (last_value_none completed) by now apply Forall_first.
  destruct (Z.ltb_spec 0 (last_value 0 total (firstn (S i) ps))) as [Ht|Ht];
    [|reflexivity].
  now rewrite percentage_zero.
Qed.

Lemma pull_without_completed_witness :
  signals (fst (_pull_model (pull_model (init example_api) "llama3")
    (map Deliver [ {| total := None; completed := None;
                      status := Some "pulling manifest" |};
                   {| total := Some 4096; completed := None;
                      status := None |} ])))
  = [ pull_progress (-1) "Starting download of llama3 to remote server...";
      pull_progress (-1) "Remote download: pulling manifest";
      pull_progress 0 "Downloading to remote server: Downloading... (0%)";
      model_pulled "llama3" ].
Proof.
  refine (eq_trans
            (pull_without_completed (init example_api) "llama3"
               [ {| total := None; completed := None;
                    status := Some "pulling manifest" |};
                 {| total := Some 4096; completed := None;
                    status := None |} ] _ _) _);
    [reflexivity | repeat constructor | reflexivity].
Defined.

(** X15: an update that brings a completed count equal to a positive
    total is reported as 100 percent, whatever came before it; when it is
    the last update the success event follows. *)
Theorem pull_complete_update (m : t) (name : string) (ps : list Progress)
    (p : Progress) (size : Z) :
  PyStr.truthy name = true -> 0 < size ->
  total p = Some size -> completed p = Some size ->
  signals (fst (_pull_model (pull_model m name)
                  (map Deliver ps ++ [Deliver p])))
  = starting name
    :: settle (pull_model m name) (progress_events 0 0 ps)
         [ pull_progress 100
             ("Downloading to remote server: " ++ get_status p
              ++ " (100%)")%string;
           model_pulled name ].
Proof.
  intros Hname Hsize Ht Hc. rewrite pull_model_signals by exact Hname.
  f_equal. rewrite pull_loop_updates by reflexivity. f_equal.
  cbn [pull_loop pull_model is_cancelled]. rewrite Ht, Hc. cbn [update].
  rewrite (proj2 (Z.ltb_lt 0 size) Hsize), percentage_full by exact Hsize.
  reflexivity.
Qed.

Lemma pull_complete_update_witness :
  signals (fst (_pull_model (pull_model (init example_api) "llama3")
    (map Deliver [] ++
     [ Deliver {| total := Some 4096; completed := Some 4096;
                  status := Some "verifying" |} ])))
  = [ pull_progress (-1) "Starting download of llama3 to remote server...";
      pull_progress 100 "Downloading to remote server: verifying (100%)";
      model_pulled "llama3" ].
Proof.
  refine (eq_trans
            (pull_complete_update (init example_api) "llama3" []
               {| total := Some 4096; completed := Some 4096;
                  status := Some "verifying" |} 4096 _ _ _ _) _);
    [reflexivity | lia | reflexivity | reflexivity | reflexivity].
Defined.

End PullShape.

(* ================================================================== *)
(** * More on the size formats *)

Section SizeFormats.

Import SpecFloat.

(** The conversion of a small integer of either sign is exact. *)
Lemma binary_round_small (s : bool) (p : positive) :
  Z.pos p < 2 ^ 53 ->
  exists (m : positive) (e : Z),
    binary_round PyFloat.prec PyFloat.emax s p 0 = S754_finite s m e /\
    Z.pos (digits2_pos m) = 53 /\ -52 <= e <= 0 /\
    Z.pos m = Z.pos p * 2 ^ (- e).
Proof.
  intros Hn.
  pose proof (digits2_pos_bounds p) as Hp.
  assert (Hd : Z.pos (digits2_pos p) <= 53).
  { destruct (Z.le_gt_cases (Z.pos (digits2_pos p)) 53) as [H|H]; [exact H|].
    exfalso. assert (2 ^ 53 <= 2 ^ (Z.pos (digits2_pos p) - 1))
      by (apply Z.pow_le_mono_r; lia). lia. }
  unfold binary_round, shl_align.
  unfold fexp, emin, PyFloat.prec, PyFloat.emax.
  replace (Z.max (Z.pos (digits2_pos p) + 0 - 53) (3 - 1024 - 53) - 0)
    with (Z.pos (digits2_pos p) - 53) by lia.
  replace (Z.max (Z.pos (digits2_pos p) + 0 - 53) (3 - 1024 - 53))
    with (Z.pos (digits2_pos p) - 53) by lia.
  destruct (Z.pos (digits2_pos p) - 53) as [|d|d] eqn:Es; try lia.
  - exists p, 0. split; [|split; [lia | split; [lia | simpl; lia]]].
    apply (binary_round_aux_normal s p 0); lia.
  - exists (Pos.iter xO p d), (Z.neg d).
    assert (Hds : Z.pos (digits2_pos (Pos.iter xO p d)) = 53)
      by (rewrite iter_xO_digits; lia).
    split; [|split; [exact Hds | split; [lia | apply iter_xO_value]]].
    apply (binary_round_aux_normal s (Pos.iter xO p d) (Z.neg d)); lia.
Qed.

Lemma tenths_whole (n : Z) :
  0 <= n -> PyFloat.tenths (10 * n) = (PyStr.of_int n ++ ".0")%string.
Proof.
  intros Hn. unfold PyFloat.tenths.
  rewrite Z.mul_comm, Z.div_mul, Z.mod_mul by lia. reflexivity.
Qed.

(** X16: [ModelManager._format_size] prints a negative count in bytes
    whatever its size: the count in full, followed by [.0 B]. *)
Theorem format_size_negative (n : Z) :
  - 2 ^ 53 < n < 0 ->
  ModelManager._format_size n = Ok (PyStr.of_int n ++ ".0 B")%string.
Proof.
  intros Hn. destruct n as [|p|p]; try lia.
  destruct (binary_round_small true p) as (m & e & Hof & Hd & He & Hm); [lia|].
  unfold ModelManager._format_size, PyFloat.of_int, PyFloat.of_Z.
  cbn [Z.eqb binary_normalize]. rewrite Hof. f_equal.
  unfold ModelManager.units. cbn [ModelManager.format_loop].
  replace (PyFloat.ltb (S754_finite true m e) PyFloat.f1024) with true
    by reflexivity.
  unfold PyFloat.format_1f.
  replace e with (e - 10 * 0) by lia.
  rewrite (tenths_of_quotient m e (Z.pos p) 0) by lia.
  change (1024 ^ 0) with 1. rewrite round_half_even_one.
  rewrite tenths_whole by lia.
  change (PyStr.of_int (Z.neg p)) with ("-" ++ PyStr.of_int (Z.pos p))%string.
  change (PyFloat.sign true) with "-". cbn [append]. f_equal.
  now rewrite append_assoc.
Qed.

Lemma format_size_negative_witness :
  ModelManager._format_size (-5000000) = Ok "-5000000.0 B".
Proof.
  refine (eq_trans (format_size_negative (-5000000) _) _);
    [lia | reflexivity].
Defined.

(** Past the bytes the loop of the dialog is the loop of the manager. *)
Lemma dialog_float_loop (us : list string) :
  forall x : spec_float,
    forallb (fun u => negb (String.eqb u "B")) us = true ->
    Dialogs.format_loop us (Dialogs.Float x)
    = Ok (ModelManager.format_loop us x).
Proof.
  induction us as [|u us IH]; intros x Hus; [reflexivity|].
  simpl in Hus. apply andb_true_iff in Hus. destruct Hus as [Hu Hus].
  cbn [Dialogs.format_loop ModelManager.format_loop Dialogs.below_1024
       Dialogs.div_1024 Dialogs.fixed_text Dialogs.with_unit].
  destruct (PyFloat.ltb x PyFloat.f1024).
  - destruct (String.eqb u "B"); [discriminate | reflexivity].
  - now apply IH.
Qed.

Lemma dialog_loop_cons (unit : string) (rest : list string)
    (v : Dialogs.number) :
  Dialogs.format_loop (unit :: rest) v
  = if Dialogs.below_1024 v then
      if String.eqb unit "B"
      then Dialogs.with_unit (Dialogs.int_text v) unit
      else Dialogs.with_unit (Dialogs.fixed_text v) unit
    else
      match Dialogs.div_1024 v with
      | Ok x => Dialogs.format_loop rest (Dialogs.Float x)
      | Exn msg => Exn msg
      end.
Proof. reflexivity. Qed.

(** The first step of both formats on a count of 1024 or more. *)
Lemma dialog_first_step (n : Z) (m : positive) (e : Z) :
  1024 <= n -> PyFloat.of_Z n = S754_finite false m e ->
  Z.pos (digits2_pos m) = 53 -> -52 <= e <= 0 ->
  Dialogs._format_size n
  = Ok (ModelManager.format_loop ["KB"; "MB"; "GB"; "TB"]
          (S754_finite false m (e - 10))).
Proof.
  intros Hn Hof Hd He. unfold Dialogs._format_size.
  destruct (Z.eqb_spec n 0); [lia|].
  unfold Dialogs.units. rewrite dialog_loop_cons.
  cbn [Dialogs.below_1024 Dialogs.div_1024].
  destruct (Z.ltb_spec n 1024); [lia|].
  unfold PyFloat.of_int. rewrite Hof.
  rewrite div_normal by (exact Hd || lia).
  now apply dialog_float_loop.
Qed.

Lemma manager_loop_cons (unit : string) (rest : list string)
    (size : spec_float) :
  ModelManager.format_loop (unit :: rest) size
  = if PyFloat.ltb size PyFloat.f1024
    then (PyFloat.format_1f size ++ " " ++ unit)%string
    else ModelManager.format_loop rest (PyFloat.div size PyFloat.f1024).
Proof. reflexivity. Qed.

Lemma manager_first_step (n : Z) (m : positive) (e : Z) :
  1024 <= n -> PyFloat.of_Z n = S754_finite false m e ->
  Z.pos (digits2_pos m) = 53 -> -52 <= e <= 0 ->
  Z.pos m = n * 2 ^ (- e) ->
  ModelManager._format_size n
  = Ok (ModelManager.format_loop ["KB"; "MB"; "GB"; "TB"]
          (S754_finite false m (e - 10))).
Proof.
  intros Hn Hof Hd He Hm.
  unfold ModelManager._format_size, PyFloat.of_int.
  destruct (Z.eqb_spec n 0); [lia|]. rewrite Hof. f_equal.
  unfold ModelManager.units. rewrite manager_loop_cons.
  rewrite (ltb_normal m e Hd).
  pose proof (exponent_above m e n 10 Hd) as Hlo.
  change (2 ^ 10) with 1024 in Hlo.
  rewrite (proj2 (Z.ltb_ge e (-42))) by lia.
  now rewrite div_normal by (exact Hd || lia).
Qed.

(** X17: from 1024 bytes on the two size formats of the application
    return the same text. *)
Theorem format_sizes_agree (n : Z) :
  1024 <= n < 2 ^ 53 ->
  Dialogs._format_size n = ModelManager._format_size n.
Proof.
  intros Hn.
  destruct (of_Z_small n) as (m & e & Hof & Hd & He & Hm); [lia|].
  rewrite (dialog_first_step n m e) by (assumption || lia).
  now rewrite (manager_first_step n m e) by (assumption || lia).
Qed.

Lemma format_sizes_agree_witness :
  Dialogs._format_size 1536 = ModelManager._format_size 1536.
Proof. apply format_sizes_agree. lia. Defined.

Lemma pow_1024 (j : Z) : 0 <= j -> 1024 ^ j = 2 ^ (10 * j).
Proof.
  intros Hj. change 1024 with (2 ^ 10). now rewrite <- Z.pow_mul_r by lia.
Qed.

(** X18: [ModelDownloadDialog._format_size] on a count below 2^53.  Zero
    and every count below 1024 are printed as whole bytes, with no
    decimal place; from 1024 on the count is divided down to the first
    of KB, MB, GB, TB at which it is below 1024, and to PB when there is
    none, and printed with one decimal place. *)
Theorem dialog_format_size_spec (n : Z) (k : nat) :
  0 <= n < 2 ^ 53 -> (k <= 5)%nat ->
  (k = 0%nat \/ 1024 ^ Z.of_nat k <= n) ->
  (k = 5%nat \/ n < 1024 ^ (Z.of_nat k + 1)) ->
  Dialogs._format_size n
  = Ok (match k with
        | O => (PyStr.of_int n ++ " B")%string
        | S _ =>
            (PyFloat.tenths
               (PyFloat.round_half_even (10 * n) (1024 ^ Z.of_nat k))
             ++ " " ++ nth k (Dialogs.units ++ ["PB"]) EmptyString)%string
        end).
Proof.
  intros Hn Hk Hlo Hhi. destruct k as [|j].
  - destruct Hhi as [Hhi|Hhi]; [discriminate|].
    change (1024 ^ (Z.of_nat 0 + 1)) with 1024 in Hhi.
    unfold Dialogs._format_size.
    destruct (Z.eqb_spec n 0) as [->|H0]; [reflexivity|].
    unfold Dialogs.units. rewrite dialog_loop_cons.
    cbn [Dialogs.below_1024]. now rewrite (proj2 (Z.ltb_lt n 1024) Hhi).
  - destruct Hlo as [Hlo|Hlo]; [discriminate|].
    assert (H1024 : 1024 <= n).
    { apply Z.le_trans with (1024 ^ Z.of_nat (S j)); [|exact Hlo].
      change 1024 with (1024 ^ 1) at 1. apply Z.pow_le_mono_r; lia. }
    destruct (of_Z_small n) as (m & e & Hof & Hd & He & Hm); [lia|].
    rewrite (dialog_first_step n m e) by (assumption || lia).
    rewrite pow_1024 in Hlo by lia.
    assert (Hlo' : 10 * Z.of_nat (S j) - 53 < e)
      by (apply (exponent_above m e n (10 * Z.of_nat (S j))); auto; lia).
    assert (Hhi' : S j = 5%nat \/ e < 10 * Z.of_nat (S j) - 42).
    { destruct Hhi as [Hhi|Hhi]; [now left | right].
      rewrite pow_1024 in Hhi by lia.
      pose proof (exponent_below m e n (10 * (Z.of_nat (S j) + 1)) Hd) as H.
      lia. }
    rewrite (format_loop_normal ["KB"; "MB"; "GB"; "TB"] m (e - 10) j Hd)
      by (simpl List.length; lia).
    f_equal. f_equal. unfold PyFloat.format_1f. cbn [PyFloat.sign append].
    f_equal. replace (e - 10 - 10 * Z.of_nat j) with (e - 10 * Z.of_nat (S j))
      by lia.
    apply tenths_of_quotient; lia.
Qed.

Lemma dialog_format_size_spec_witness :
  Dialogs._format_size 0 = Ok "0 B" /\
  Dialogs._format_size 512 = Ok "512 B" /\
  Dialogs._format_size 1536 = Ok "1.5 KB".
Proof.
  split; [|split].
  - refine (eq_trans (dialog_format_size_spec 0 0 _ _ _ _) _);
      [lia | lia | now left | right; lia | reflexivity].
  - refine (eq_trans (dialog_format_size_spec 512 0 _ _ _ _) _);
      [lia | lia | now left | right; lia | reflexivity].
  - refine (eq_trans (dialog_format_size_spec 1536 1 _ _ _ _) _);
      [lia | lia | right; lia | right; lia | reflexivity].
Defined.

End SizeFormats.

(* ================================================================== *)
(** * The listing of the installed models *)

Section ListingFacts.

Import ModelList.

(** The loop over a run of models that all convert, seen from a manager
    that is not cancelled. *)
Lemma load_loop_models (es : list entry) :
  forall (m : ModelManager.t) (acc infos : list ModelInfo)
         (tail : list (stream_event entry)),
    ModelManager.is_cancelled m = false ->
    Forall2 (fun e i => model_info e = Ok i) es infos ->
    load_loop m acc (map Deliver es ++ tail) = load_loop m (acc ++ infos) tail.
Proof.
  induction es as [|e es IH]; intros m acc infos tail Hm Hes.
  - inversion Hes; subst. now rewrite app_nil_r.
  - inversion Hes as [|e' i es' infos' He Hes']; subst.
    cbn [map app load_loop]. rewrite Hm, He.
    rewrite (IH m (acc ++ [i]) infos' tail Hm Hes').
    now rewrite <- app_assoc.
Qed.

Lemma load_loop_cancelled (stream : list (stream_event entry)) :
  forall (m : ModelManager.t) (acc : list ModelInfo),
    ModelManager.is_cancelled m = true -> load_loop m acc stream = [].
Proof.
  induction stream as [|e rest IH]; intros m acc Hm; cbn [load_loop].
  - now rewrite Hm.
  - destruct e as [model|msg|].
    + now rewrite Hm.
    + unfold on_exception. now rewrite Hm.
    + now apply IH.
Qed.

(** X19: a listing that is neither cancelled nor broken emits exactly
    one event, which carries one [ModelInfo] for each model of the
    answer, in the order of the answer. *)
Theorem load_models_lists_all (m : ModelManager.t) (es : list entry)
    (infos : list ModelInfo) :
  Forall2 (fun e i => model_info e = Ok i) es infos ->
  _load_models (load_models m) (map Deliver es) = [models_loaded infos].
Proof.
  intros Hes. unfold _load_models.
  pose proof (load_loop_models es (load_models m) [] infos [] eq_refl Hes)
    as H.
  rewrite app_nil_r in H. rewrite H. reflexivity.
Qed.

Lemma load_models_lists_all_witness :
  _load_models (load_models (ModelManager.init example_api))
    (map Deliver
       [ ModelObject (Some "llama3:latest") (Some 1536) (Some "2024-05-01")
           (Some "abc") None;
         ModelDict None None None None (Some (Some [("family", "llama")])) ])
  = [ models_loaded
        [ {| name := "llama3:latest"; size := "1.5 KB";
             modified := "2024-05-01"; digest := "abc"; details := [] |};
          {| name := "Unknown"; size := "Unknown"; modified := EmptyString;
             digest := EmptyString; details := [("family", "llama")] |} ] ].
Proof.
  apply load_models_lists_all. repeat constructor.
Defined.

(** X20: a listing that is asked to stop before it has gone through the
    answer emits nothing, neither the models read so far nor an error,
    whatever follows the request. *)
Theorem load_models_cancelled (m : ModelManager.t) (es : list entry)
    (infos : list ModelInfo) (rest : list (stream_event entry)) :
  Forall2 (fun e i => model_info e = Ok i) es infos ->
  _load_models (load_models m) (map Deliver es ++ CancelRequest :: rest) = [].
Proof.
  intros Hes. unfold _load_models.
  rewrite (load_loop_models es (load_models m) [] infos _ eq_refl Hes).
  cbn [load_loop]. now apply load_loop_cancelled.
Qed.

Lemma load_models_cancelled_witness :
  _load_models (load_models (ModelManager.init example_api))
    (map Deliver [ ModelDict (Some "llama3") (Some 0) None None None ]
     ++ CancelRequest :: [Raise "late"]) = [].
Proof.
  refine (load_models_cancelled _ _ _ _ _). repeat constructor.
Defined.

(** X21: when the request or the reading of the answer raises and the
    listing has not been cancelled, exactly one error event is emitted
    and no list; its text names the server address and carries the text
    of the exception. *)
Theorem load_models_failed (m : ModelManager.t) (es : list entry)
    (infos : list ModelInfo) (msg : string)
    (rest : list (stream_event entry)) :
  Forall2 (fun e i => model_info e = Ok i) es infos ->
  let text := ("Failed to connect to remote server "
               ++ base_url (ModelManager.api_config m) ++ ": " ++ msg)%string in
  _load_models (load_models m) (map Deliver es ++ Raise msg :: rest)
  = [error_occurred text] /\
  PyStr.contains (base_url (ModelManager.api_config m)) text = true /\
  PyStr.contains msg text = true.
Proof.
  intros Hes text. split; [|split].
  - unfold _load_models.
    now rewrite (load_loop_models es (load_models m) [] infos _ eq_refl Hes).
  - apply contains_append.
  - replace text
      with (("Failed to connect to remote server "
             ++ base_url (ModelManager.api_config m) ++ ": ")
            ++ msg ++ EmptyString)%string;
      [apply contains_append|].
    unfold text. now rewrite append_empty_r, !append_assoc.
Qed.

Lemma load_models_failed_witness :
  _load_models (load_models (ModelManager.init example_api))
    (map Deliver [] ++ Raise "connection refused" :: [])
  = [ error_occurred
        "Failed to connect to remote server http://localhost:11434: connection refused" ].
Proof.
  refine (proj1 (load_models_failed (ModelManager.init example_api) [] []
                   "connection refused" [] _)).
  constructor.
Defined.

End ListingFacts.

(* ================================================================== *)
(** * The model selected after a listing *)

Section SelectionFacts.

Import ModelList.

Lemma mem_In (x : string) (l : list string) : mem x l = true <-> In x l.
Proof.
  unfold mem. rewrite existsb_exists. split.
  - intros (y & Hy & E). apply String.eqb_eq in E. now subst.
  - intros H. exists x. split; [exact H | apply String.eqb_refl].
Qed.

(** X22: the model selected after a listing is always one of the names
    put in the box, which are accepted names of installed models.  The
    default model is selected whenever it is among them, whatever the box
    showed before. *)
Theorem model_to_select_installed (default_model current_text : string)
    (models : list ModelInfo) :
  (forall x,
     model_to_select default_model current_text (installed_names models)
     = Some x ->
     In x (installed_names models) /\ In x (map name models) /\
     Catalog.accepts x = true) /\
  (In default_model (installed_names models) ->
   model_to_select default_model current_text (installed_names models)
   = Some default_model).
Proof.
  split.
  - intros x Hsel.
    assert (Hin : In x (installed_names models)).
    { unfold model_to_select in Hsel.
      destruct (andb _ _) eqn:E1.
      - apply andb_true_iff in E1. destruct E1 as [Ht Hm].
        rewrite Ht in Hsel. inversion Hsel; subst. now apply mem_In.
      - destruct (mem current_text _) eqn:E2; [|discriminate].
        destruct (PyStr.truthy current_text); [|discriminate].
        inversion Hsel; subst. now apply mem_In. }
    split; [exact Hin|].
    pose proof (filter_valid_models_accepted _ _ Hin) as Hacc.
    split; [|exact Hacc].
    unfold installed_names, Catalog.filter_valid_models in Hin.
    rewrite filter_loop_filter in Hin. simpl in Hin.
    apply sorted_In, filter_In in Hin. tauto.
  - intros Hin. unfold model_to_select.
    assert (Ht : PyStr.truthy default_model = true).
    { apply filter_valid_models_accepted in Hin.
      destruct default_model; [discriminate | reflexivity]. }
    rewrite Ht, (proj2 (mem_In _ _) Hin). simpl. now rewrite Ht.
Qed.

End SelectionFacts.
